(** * A shallow embedding of the diffusion / forward-forward script

    The script under study is a single Python file: a [UNet] class, the
    contrastive loss [forward_forward], a module-level training loop and
    the [sample] routine.  Every computation it performs is a call into
    the tensor library, so the embedding has three layers:

    - the Python layer: exceptions, numbers ([int] versus [float]),
      [range], and the binding of positional arguments to a signature;
    - the tensor layer: shapes with row-major data, boolean-mask and
      integer indexing, slicing, broadcasting arithmetic, [mean];
    - the script itself, written in a state-and-exception monad over the
      global random generator, the model parameters and the optimiser.

    Convolution kernels, automatic differentiation, the Adam update and
    the normal sampler are library code; they are fields of an abstract
    runtime and stay uninterpreted. *)

From Stdlib Require Import List ZArith QArith Bool String Lia Arith.
Import ListNotations.

Set Implicit Arguments.

(* ------------------------------------------------------------------ *)
(** ** Python layer *)

Module Py.

(** The exception classes the script can meet. *)
Inductive exn : Type :=
| TypeError | ValueError | AttributeError | IndexError | RuntimeError
| NameError.

(** A Python expression either yields a value or raises. *)
Inductive result (A : Type) : Type :=
| Ok (a : A)
| Raise (e : exn).
Arguments Ok {A} a.
Arguments Raise {A} e.

Definition rbind {A B} (r : result A) (k : A -> result B) : result B :=
match r with
| Ok a => k a
| Raise e => Raise e
end.

Definition is_ok {A} (r : result A) : bool :=
match r with Ok _ => true | Raise _ => false end.

(** Python numbers as the constructor sees them: an [int] is unbounded, a
  [float] is kept as the rational it denotes.  The only floats the
  constructor makes are [2 ** -k * n]; a double holds them exactly as
  long as [n] is below [2 ** 53] and [k] is moderate, and beyond that
  the embedding keeps the exact value where Python rounds, which can
  change the class of the exception a constructor raises, not whether
  it raises. *)
Inductive num : Type :=
| PyInt (z : Z)
| PyFloat (q : Q).

Definition is_float (n : num) : bool :=
match n with PyInt _ => false | PyFloat _ => true end.

Definition to_Q (n : num) : Q :=
match n with PyInt z => inject_Z z | PyFloat q => q end.

(** [b ** e] on two [int]s: an [int] when the exponent is not negative,
  a [float] otherwise. *)
Definition pow (b e : Z) : num :=
if (0 <=? e)%Z then PyInt (b ^ e)
else PyFloat (Qinv (inject_Z (b ^ (- e)))).

(** [x * y]: an [int] only when both operands are. *)
Definition mul (x y : num) : num :=
match x, y with
| PyInt a, PyInt b => PyInt (a * b)
| _, _ => PyFloat (Qmult (to_Q x) (to_Q y))
end.

(** [range(start, stop, step)] for a non-zero step. *)
Definition range_len (start stop step : Z) : nat :=
if (0 <? step)%Z then Z.to_nat ((stop - start + step - 1) / step)
else if (step <? 0)%Z then Z.to_nat ((start - stop - step - 1) / (- step))
else 0%nat.

Definition range3 (start stop step : Z) : list Z :=
map (fun k => (start + Z.of_nat k * step)%Z) (seq 0 (range_len start stop step)).

Definition range (n : Z) : list Z := range3 0 n 1.

(** [reversed(range(n))]. *)
Definition reversed {A} (l : list A) : list A := rev l.

(** [l[-k]] for [k >= 1]. *)
Definition neg_index {A} (l : list A) (k : nat) : result A :=
match k with
| O => Raise IndexError
| S k' =>
    match nth_error (rev l) k' with
    | Some a => Ok a
    | None => Raise IndexError
    end
end.

(** A [def f(self, p1, ..., pn, q1=d1, ..., qm=dm)] signature; [self] is
  left out. *)
Record signature (V : Type) : Type := mkSig {
required : list string;
defaults : list (string * V)
}.

(** Binding a positional call to a signature.  Too few arguments for the
  required parameters, or too many for all of them, is a [TypeError];
  otherwise the missing optional parameters take their defaults. *)
Definition bind_args {V} (sg : signature V) (args : list V) : result (list V) :=
let nreq := List.length (required sg) in
let nargs := List.length args in
if (nargs <? nreq)%nat then Raise TypeError
else if (nreq + List.length (defaults sg) <? nargs)%nat then Raise TypeError
else Ok (args ++ map snd (skipn (nargs - nreq) (defaults sg))).

End Py.

Import Py.

Declare Scope py_scope.
Delimit Scope py_scope with py.
Notation "x <- c ;; k" := (rbind c (fun x => k))
  (at level 61, c at next level, right associativity) : py_scope.
Notation "c ;;; k" := (rbind c (fun _ => k))
  (at level 61, right associativity) : py_scope.
Local Open Scope py_scope.

(** [for x in l: acc = body(x, acc)], stopping at the first exception. *)
Fixpoint for_fold {A S} (l : list A) (body : A -> S -> result S) (s : S) : result S :=
  match l with
  | [] => Ok s
  | x :: l' => s' <- body x s ;; for_fold l' body s'
  end.

(** [for x in l: out.append(f(x))]. *)
Fixpoint for_collect {A B} (l : list A) (f : A -> result B) : result (list B) :=
  match l with
  | [] => Ok []
  | x :: l' => y <- f x ;; ys <- for_collect l' f ;; Ok (y :: ys)
  end.

(* ------------------------------------------------------------------ *)
(** ** The network: layers, constructor, forward pass *)

(** The four layer classes [UNet.__init__] instantiates, with the
    arguments it gives them. *)
Inductive Layer : Type :=
| Conv2d (in_ch out_ch kernel_size padding : nat)
| ConvTranspose2d (in_ch out_ch kernel_size stride : nat)
| LeakyReLU
| MaxPool2d (kernel_size : nat).

(** [nn.Sequential(l1, ..., ln)]. *)
Definition Sequential : Type := list Layer.

(** [c % groups != 0] with [groups = 1], the first test both convolution
    constructors run on a channel count. *)
Definition divisible_by_groups (c : num) : bool :=
  match c with
  | PyInt _ => true
  | PyFloat q => (Qnum q mod Zpos (Qden q) =? 0)%Z
  end.

(** A tensor size is a 64-bit signed integer. *)
Definition int64_bound : Z := 2 ^ 63.

Definition fits_int64 (z : Z) : bool :=
  ((- int64_bound <=? z) && (z <? int64_bound))%Z.

(** Allocation of the weight tensor: its sizes must be [int]s that fit a
    64-bit integer (a [float] size, or an [int] out of that range, is a
    [TypeError] of the argument parser) and not negative (a
    [RuntimeError]).  A size within the range is taken as granted:
    exhaustion of memory is outside the model. *)
Definition weight_dims (in_ch out_ch : num) : result (nat * nat) :=
  match in_ch, out_ch with
  | PyInt i, PyInt o =>
      if negb (fits_int64 i && fits_int64 o) then Raise TypeError
      else if ((i <? 0) || (o <? 0))%Z then Raise RuntimeError
      else Ok (Z.to_nat i, Z.to_nat o)
  | _, _ => Raise TypeError
  end.

Definition conv_channels (in_ch out_ch : num) : result (nat * nat) :=
  if negb (divisible_by_groups in_ch) then Raise ValueError
  else if negb (divisible_by_groups out_ch) then Raise ValueError
  else weight_dims in_ch out_ch.

(** [nn.Conv2d(in_ch, out_ch, kernel_size=k, padding=p)]. *)
Definition nn_Conv2d (in_ch out_ch : num) (k p : nat) : result Layer :=
  io <- conv_channels in_ch out_ch ;; Ok (Conv2d (fst io) (snd io) k p).

(** [nn.ConvTranspose2d(in_ch, out_ch, kernel_size=k, stride=s)]. *)
Definition nn_ConvTranspose2d (in_ch out_ch : num) (k s : nat) : result Layer :=
  io <- conv_channels in_ch out_ch ;; Ok (ConvTranspose2d (fst io) (snd io) k s).

Record UNet : Type := mkUNet {
  down_layers : list Sequential;
  bottleneck : Sequential;
  up_layers : list Sequential;
  output_layer : Layer
}.

Section Constructor.

Variables in_channels out_channels : num.
Variable num_layers : Z.

(** Channel counts of the downsampling stage [i]. *)
Definition down_in_ch (i : Z) : num :=
  if (i =? 0)%Z then in_channels else mul (pow 2 (i - 1)) out_channels.

Definition down_out_ch (i : Z) : num := mul (pow 2 i) out_channels.

Definition down_block (i : Z) : result Sequential :=
  let in_ch := down_in_ch i in
  let out_ch := down_out_ch i in
  c1 <- nn_Conv2d in_ch out_ch 3 1 ;;
  c2 <- nn_Conv2d out_ch out_ch 3 1 ;;
  Ok [c1; LeakyReLU; c2; LeakyReLU; MaxPool2d 2].

Definition bottleneck_block : result Sequential :=
  c1 <- nn_Conv2d (mul (pow 2 (num_layers - 1)) out_channels) out_channels 3 1 ;;
  c2 <- nn_Conv2d out_channels out_channels 3 1 ;;
  Ok [c1; LeakyReLU; c2; LeakyReLU].

(** Channel counts of the upsampling stage [i]. *)
Definition up_in_ch (i : Z) : num :=
  if (i =? num_layers - 1)%Z then mul out_channels (PyInt 2)
  else mul (pow 2 i) out_channels.

Definition up_out_ch (i : Z) : num := mul (pow 2 (i - 1)) out_channels.

Definition up_block (i : Z) : result Sequential :=
  let in_ch := up_in_ch i in
  let out_ch := up_out_ch i in
  t <- nn_ConvTranspose2d in_ch out_ch 2 2 ;;
  c1 <- nn_Conv2d out_ch out_ch 3 1 ;;
  c2 <- nn_Conv2d out_ch out_ch 3 1 ;;
  Ok [t; LeakyReLU; c1; LeakyReLU; c2; LeakyReLU].

(** [UNet.__init__]: the three groups of layers are built in source
    order, and the first constructor that raises ends the call. *)
Definition UNet_init : result UNet :=
  downs <- for_collect (range num_layers) down_block ;;
  bott <- bottleneck_block ;;
  ups <- for_collect (reversed (range num_layers)) up_block ;;
  outl <- nn_Conv2d out_channels out_channels 3 1 ;;
  Ok (mkUNet downs bott ups outl).

End Constructor.

(** The layers of a stage once its channel counts have been accepted:
    what [down_block], [bottleneck_block] and [up_block] return when they
    return. *)
Definition down_stage (a c : nat) : Sequential :=
  [Conv2d a c 3 1; LeakyReLU; Conv2d c c 3 1; LeakyReLU; MaxPool2d 2].

Definition bottleneck_stage (a c : nat) : Sequential :=
  [Conv2d a c 3 1; LeakyReLU; Conv2d c c 3 1; LeakyReLU].

Definition up_stage (a c : nat) : Sequential :=
  [ConvTranspose2d a c 2 2; LeakyReLU; Conv2d c c 3 1; LeakyReLU;
   Conv2d c c 3 1; LeakyReLU].

(** What executes a layer.  [P] is the parameter store the layers read
    their weights from, [T] what flows through the network. *)
Class Backend (P T : Type) : Type := {
  run_layer : P -> Layer -> T -> result T;
  cat_dim1 : T -> T -> result T
}.

Section Forward.

Context {P T : Type} {BK : Backend P T}.
Variable p : P.

Definition run_sequential (ls : Sequential) (x : T) : result T :=
  for_fold ls (run_layer p) x.

(** The downsampling loop; [down_outputs] grows by one entry a stage. *)
Fixpoint down_pass (ls : list Sequential) (x : T) (down_outputs : list T)
  : result (T * list T) :=
  match ls with
  | [] => Ok (x, down_outputs)
  | layer :: ls' =>
      x' <- run_sequential layer x ;;
      down_pass ls' x' (down_outputs ++ [x'])
  end.

(** The upsampling loop over [enumerate(self.up_layers)]. *)
Fixpoint up_pass (ls : list Sequential) (i : nat) (down_outputs : list T) (x : T)
  : result T :=
  match ls with
  | [] => Ok x
  | layer :: ls' =>
      x1 <- run_sequential layer x ;;
      skip_connection <- neg_index down_outputs (i + 1) ;;
      x2 <- cat_dim1 x1 skip_connection ;;
      up_pass ls' (S i) down_outputs x2
  end.

(** [UNet.forward(self, x)]. *)
Definition forward (net : UNet) (x : T) : result T :=
  xd <- down_pass (down_layers net) x [] ;;
  x1 <- run_sequential (bottleneck net) (fst xd) ;;
  x2 <- up_pass (up_layers net) 0 (snd xd) x1 ;;
  run_layer p (output_layer net) x2.

End Forward.

(** *** The shape rules of the layers *)

Definition Shape : Type := list nat.

(** Output extent of a convolution window of size [k] with padding [pd]
    and stride 1. *)
Definition conv_extent (h k pd : nat) : result nat :=
  if (h + 2 * pd <? k)%nat then Raise RuntimeError
  else Ok (h + 2 * pd - k + 1)%nat.

(** Output extent of a pooling window of size [k] moved by [k]. *)
Definition pool_extent (h k : nat) : result nat :=
  if ((h / k) =? 0)%nat then Raise RuntimeError else Ok (h / k)%nat.

(** Output extent of a transposed convolution. *)
Definition convT_extent (h k s : nat) : nat :=
  Z.to_nat ((Z.of_nat h - 1) * Z.of_nat s + Z.of_nat k).

(** A layer on the channel, height and width extents of an image. *)
Definition layer_chw (l : Layer) (c h w : nat) : result Shape :=
  match l with
  | LeakyReLU => Ok [c; h; w]
  | Conv2d i o k pd =>
      if (c =? i)%nat
      then h' <- conv_extent h k pd ;; w' <- conv_extent w k pd ;; Ok [o; h'; w']
      else Raise RuntimeError
  | ConvTranspose2d i o k st =>
      if (c =? i)%nat
      then Ok [o; convT_extent h k st; convT_extent w k st]
      else Raise RuntimeError
  | MaxPool2d k =>
      h' <- pool_extent h k ;; w' <- pool_extent w k ;; Ok [c; h'; w']
  end.

(** A layer on a shape.  The convolution and pooling layers take a batch
    [(B, C, H, W)] or a single image [(C, H, W)] and raise a
    [RuntimeError] on any other rank; the activation takes any shape. *)
Definition layer_shape (l : Layer) (s : Shape) : result Shape :=
  match l, s with
  | LeakyReLU, _ => Ok s
  | _, [b; c; h; w] => chw <- layer_chw l c h w ;; Ok (b :: chw)
  | _, [c; h; w] => layer_chw l c h w
  | _, _ => Raise RuntimeError
  end.

Fixpoint shape_eqb (x y : Shape) : bool :=
  match x, y with
  | [], [] => true
  | a :: x', b :: y' => (a =? b)%nat && shape_eqb x' y'
  | _, _ => false
  end.

(** [torch.cat([x, y], dim=1)] on shapes: every extent but the channel
    one has to agree. *)
Definition cat_shape (x y : Shape) : result Shape :=
  match x, y with
  | b1 :: c1 :: r1, b2 :: c2 :: r2 =>
      if ((b1 =? b2)%nat && shape_eqb r1 r2)%bool
      then Ok (b1 :: (c1 + c2)%nat :: r1)
      else Raise RuntimeError
  | _, _ => Raise RuntimeError
  end.

#[export] Instance ShapeBackend : Backend unit Shape := {
  run_layer := fun _ => layer_shape;
  cat_dim1 := cat_shape
}.

(* ------------------------------------------------------------------ *)
(** ** Tensor layer *)

(** The element type of tensors.  The script never inspects a float; it
    only adds, subtracts, multiplies and averages them, so the element
    type is an interface.  The one law is the sign symmetry of a squared
    difference, which holds for IEEE arithmetic ([a - b] and [b - a]
    round to opposite values) as it does for exact arithmetic. *)
Class Scalar (F : Type) : Type := {
  fzero : F;
  fadd : F -> F -> F;
  fsub : F -> F -> F;
  fmul : F -> F -> F;
  fdiv_count : F -> nat -> F;
  fsq_sub_swap : forall a b, fmul (fsub a b) (fsub a b) = fmul (fsub b a) (fsub b a)
}.

(** A tensor: its shape, its elements in row-major order, and whether
    it is attached to the autograd graph. *)
Record Tensor (F : Type) : Type := mkTensor {
  shape : Shape;
  data : list F;
  requires_grad : bool
}.
Arguments mkTensor {F} shape data requires_grad.

Definition prod_dims (s : Shape) : nat := fold_right Nat.mul 1%nat s.

(** [t.nelement()]. *)
Definition nelement {F} (t : Tensor F) : nat := prod_dims (shape t).

(** The leading extent, the batch size of an image batch. *)
Definition batch_dim {F} (t : Tensor F) : option nat := hd_error (shape t).

(** [y == c] on a one-dimensional integer label tensor. *)
Definition labels_eq (y : list Z) (c : Z) : list bool := map (Z.eqb c) y.

(** The labelling in which the roles of the labels 1 and 0 are exchanged. *)
Definition swap_labels (y : list Z) : list Z :=
  map (fun l => if (l =? 1)%Z then 0%Z else if (l =? 0)%Z then 1%Z else l) y.

Fixpoint true_positions (mask : list bool) (i : nat) : list nat :=
  match mask with
  | [] => []
  | true :: m => i :: true_positions m (S i)
  | false :: m => true_positions m (S i)
  end.

(** The [n]-th block of [k] consecutive elements. *)
Definition block {A} (k n : nat) (l : list A) : list A := firstn k (skipn (n * k) l).

(** Row-major enumeration of the multi-indices of a shape. *)
Fixpoint indices (s : Shape) : list (list nat) :=
  match s with
  | [] => [[]]
  | n :: s' => flat_map (fun i => map (cons i) (indices s')) (seq 0 n)
  end.

Definition flat_index (s : Shape) (idx : list nat) : nat :=
  fold_left (fun acc di => (acc * fst di + snd di)%nat) (combine s idx) 0%nat.

(** Broadcasting of two shapes, aligned on the last axis; written on the
    reversed shapes. *)
Fixpoint bshape_rev (a b : Shape) : option Shape :=
  match a, b with
  | [], _ => Some b
  | _, [] => Some a
  | x :: a', y :: b' =>
      if (x =? y)%nat then option_map (cons x) (bshape_rev a' b')
      else if (x =? 1)%nat then option_map (cons y) (bshape_rev a' b')
      else if (y =? 1)%nat then option_map (cons x) (bshape_rev a' b')
      else None
  end.

Definition bshape (a b : Shape) : option Shape :=
  option_map (@rev nat) (bshape_rev (rev a) (rev b)).

(** The index an operand of shape [s] is read at when the result is read
    at [idx]: leading axes it lacks are dropped, axes of extent 1 repeat. *)
Definition bindex (s : Shape) (idx : list nat) : list nat :=
  map (fun di => if (fst di =? 1)%nat then 0%nat else snd di)
      (combine s (skipn (List.length idx - List.length s) idx)).

Section TensorOps.

Context {F : Type} {SC : Scalar F}.
Local Abbreviation tensor := (Tensor F).

(** [torch.tensor(v)] for a Python float [v]: a fresh 0-dimensional
    leaf outside the autograd graph. *)
Definition torch_tensor (v : F) : tensor := mkTensor [] [v] false.

(** Whether [X[mask]] is a legal index expression: the mask is as long
    as the leading axis. *)
Definition mask_ok (X : tensor) (mask : list bool) : bool :=
  match shape X with
  | [] => false
  | b :: _ => (b =? List.length mask)%nat
  end.

(** [X[mask]] for a one-dimensional boolean mask: the mask has to be as
    long as the leading axis, and the rows it marks are kept. *)
Definition mask_index (X : tensor) (mask : list bool) : result tensor :=
  match shape X with
  | [] => Raise IndexError
  | b :: rest =>
      if (b =? List.length mask)%nat
      then
        let rows := true_positions mask 0 in
        Ok (mkTensor (List.length rows :: rest)
              (flat_map (fun i => block (prod_dims rest) i (data X)) rows)
              (requires_grad X))
      else Raise IndexError
  end.

(** [X[i]] for a Python [int]; negative indices count from the end. *)
Definition select (X : tensor) (i : Z) : result tensor :=
  match shape X with
  | [] => Raise IndexError
  | b :: rest =>
      if ((- Z.of_nat b <=? i) && (i <? Z.of_nat b))%Z
      then Ok (mkTensor rest
                 (block (prod_dims rest) (Z.to_nat (i mod Z.of_nat b)) (data X))
                 (requires_grad X))
      else Raise IndexError
  end.

(** [X[:, :, lo:hi]] with [hi = None] for an open end; slice bounds are
    clipped to the extent the way Python clips them. *)
Definition slice_dim2 (X : tensor) (lo : nat) (hi : option nat) : result tensor :=
  match shape X with
  | b :: c :: h :: rest =>
      let lo' := Nat.min lo h in
      let hi' := Nat.max lo' (match hi with Some n => Nat.min n h | None => h end) in
      let r := prod_dims rest in
      Ok (mkTensor (b :: c :: (hi' - lo')%nat :: rest)
            (flat_map (fun j => firstn ((hi' - lo') * r)
                                  (skipn (lo' * r) (block (h * r) j (data X))))
                      (seq 0 (b * c)))
            (requires_grad X))
  | _ => Raise IndexError
  end.

Definition bread (t : tensor) (idx : list nat) : F :=
  nth (flat_index (shape t) (bindex (shape t) idx)) (data t) fzero.

(** An elementwise binary operator with broadcasting. *)
Definition bmap2 (f : F -> F -> F) (a b : tensor) : result tensor :=
  match bshape (shape a) (shape b) with
  | None => Raise RuntimeError
  | Some s =>
      Ok (mkTensor s (map (fun idx => f (bread a idx) (bread b idx)) (indices s))
            (requires_grad a || requires_grad b))
  end.

Definition tadd := bmap2 fadd.
Definition tsub := bmap2 fsub.
Definition tmul := bmap2 fmul.

(** [t ** 2]. *)
Definition tsquare (t : tensor) : tensor :=
  mkTensor (shape t) (map (fun v => fmul v v) (data t)) (requires_grad t).

(** [torch.mean(t)]: the sum of the elements over their count, as a
    0-dimensional tensor.  The order of the additions is the library's;
    here they go from left to right. *)
Definition torch_mean (t : tensor) : tensor :=
  mkTensor [] [fdiv_count (fold_left fadd (data t) fzero) (List.length (data t))]
    (requires_grad t).

End TensorOps.

(* ------------------------------------------------------------------ *)
(** ** The library runtime and the script monad *)

(** What the script takes from the tensor library without looking inside:
    the element type, the global random generator and its normal sampler,
    the draws a new layer makes for its weights ([reset_parameters], the
    generator after them), the parameter store of a network whose
    construction began in a given generator state, reverse-mode
    differentiation, the Adam update, the kernels of the layers, and one
    shuffled pass of the data loader. *)
Class Runtime : Type := {
  elt : Type;
  elt_scalar :: Scalar elt;
  Gen : Type;
  next_normal : Gen -> elt * Gen;
  Params : Type;
  Grads : Type;
  OptState : Type;
  reset_parameters : Layer -> Gen -> Gen;
  initial_params : UNet -> Gen -> Params;
  autograd : Params -> Tensor elt -> Grads;
  accumulate : option Grads -> Grads -> Grads;
  adam_init : Params -> OptState;
  adam_step : OptState -> Params -> Grads -> Params * OptState;
  kernels :: Backend Params (Tensor elt);
  iter_loader : Gen -> list (Tensor elt * list Z) * Gen;
  dataset_len : nat
}.

Section Script.

Context {RT : Runtime}.
Local Abbreviation tensor := (Tensor elt).

(** Python values that are passed to, or read from, a model object. *)
Inductive value : Type :=
| VNum (n : num)
| VTensor (t : tensor)
| VModules.

(** A model object as the script uses one: attribute lookup and a call
    with positional arguments.  The result of a call is a function of
    the current parameters and the arguments: the layers of the script's
    network draw no random numbers and keep no running statistics. *)
Record PyModel : Type := mkModel {
  getattr : string -> result value;
  call : Params -> list value -> result tensor
}.

(** What the run leaves behind: invocations of the model and lines
    printed. *)
Inductive Event : Type :=
| EvCall (args : list value)
| EvPrint (epoch : Z) (done total : nat) (percent : Q) (loss : option elt).

Record World : Type := mkWorld {
  rng : Gen;
  params : Params;
  grads : option Grads;
  opt : OptState;
  trace : list Event
}.

(** State and exceptions; the state survives an exception. *)
Definition M (A : Type) : Type := World -> result A * World.

Definition mret {A} (a : A) : M A := fun w => (Ok a, w).

Definition mbind {A B} (c : M A) (k : A -> M B) : M B :=
  fun w =>
    match c w with
    | (Ok a, w') => k a w'
    | (Raise e, w') => (Raise e, w')
    end.

Definition lift {A} (r : result A) : M A := fun w => (r, w).

Definition emit (e : Event) : M unit :=
  fun w => (Ok tt, mkWorld (rng w) (params w) (grads w) (opt w) (trace w ++ [e])).

End Script.

Declare Scope m_scope.
Delimit Scope m_scope with m.
Notation "x <- c ;; k" := (mbind c (fun x => k))
  (at level 61, c at next level, right associativity) : m_scope.
Notation "c ;;; k" := (mbind c (fun _ => k))
  (at level 61, right associativity) : m_scope.

Section Program.

Context {RT : Runtime}.
Local Abbreviation tensor := (Tensor elt).
Local Open Scope m_scope.

(** [for x in l: acc = body(x, acc)] in the script monad. *)
Fixpoint mfor {A S} (l : list A) (body : A -> S -> M S) (s : S) : M S :=
  match l with
  | [] => mret s
  | x :: l' => s' <- body x s ;; mfor l' body s'
  end.

(** *** The [UNet] class as a model object *)

Definition UNet_init_sig : signature value :=
  mkSig ["in_channels"; "out_channels"]%string [("num_layers"%string, VNum (PyInt 5))].

Definition forward_sig : signature value := mkSig ["x"%string] [].

(** Attribute lookup on an instance: the four submodules [__init__]
    registers are there, any other name of the script's is not. *)
Definition UNet_getattr (name : string) : result value :=
  if existsb (String.eqb name)
       ["down_layers"; "bottleneck"; "up_layers"; "output_layer"]%string
  then Ok VModules
  else Raise AttributeError.

(** [net(a1, ..., an)]: the arguments are bound to [forward(self, x)]. *)
Definition UNet_call (net : UNet) (p : Params) (args : list value) : result tensor :=
  (xs <- bind_args forward_sig args ;;
   match xs with
   | [VTensor x] => forward p net x
   | _ => Raise TypeError
   end)%py.

Definition UNet_obj (net : UNet) : PyModel := mkModel UNet_getattr (UNet_call net).

(** *** Construction with its draws

  A convolution constructor that goes through initialises the weights
  of its layer from the global generator, there and then; the
  activation and pooling layers have no weights. *)
Definition built (r : result Layer) : M Layer :=
  l <- lift r ;;
  (fun w =>
     (Ok l, mkWorld (reset_parameters l (rng w)) (params w) (grads w) (opt w) (trace w))).

(** [for x in l: out.append(f(x))] in the script monad. *)
Fixpoint mcollect {A B} (l : list A) (f : A -> M B) : M (list B) :=
  match l with
  | [] => mret []
  | x :: l' => y <- f x ;; ys <- mcollect l' f ;; mret (y :: ys)
  end.

Definition build_down_block (in_channels out_channels : num) (i : Z) : M Sequential :=
  let in_ch := down_in_ch in_channels out_channels i in
  let out_ch := down_out_ch out_channels i in
  c1 <- built (nn_Conv2d in_ch out_ch 3 1) ;;
  c2 <- built (nn_Conv2d out_ch out_ch 3 1) ;;
  mret [c1; LeakyReLU; c2; LeakyReLU; MaxPool2d 2].

Definition build_bottleneck (out_channels : num) (num_layers : Z) : M Sequential :=
  c1 <- built (nn_Conv2d (mul (pow 2 (num_layers - 1)) out_channels) out_channels 3 1) ;;
  c2 <- built (nn_Conv2d out_channels out_channels 3 1) ;;
  mret [c1; LeakyReLU; c2; LeakyReLU].

Definition build_up_block (out_channels : num) (num_layers : Z) (i : Z) : M Sequential :=
  let in_ch := up_in_ch out_channels num_layers i in
  let out_ch := up_out_ch out_channels i in
  t <- built (nn_ConvTranspose2d in_ch out_ch 2 2) ;;
  c1 <- built (nn_Conv2d out_ch out_ch 3 1) ;;
  c2 <- built (nn_Conv2d out_ch out_ch 3 1) ;;
  mret [t; LeakyReLU; c1; LeakyReLU; c2; LeakyReLU].

(** The body of [UNet.__init__] as it runs: the layers in source order,
  each drawing its weights as it is built, up to the first constructor
  that raises.  Its outcome is that of [UNet_init]. *)
Definition build_UNet (in_channels out_channels : num) (num_layers : Z) : M UNet :=
  downs <- mcollect (range num_layers) (build_down_block in_channels out_channels) ;;
  bott <- build_bottleneck out_channels num_layers ;;
  ups <- mcollect (reversed (range num_layers)) (build_up_block out_channels num_layers) ;;
  outl <- built (nn_Conv2d out_channels out_channels 3 1) ;;
  mret (mkUNet downs bott ups outl).

(** [UNet(a1, ..., an)]: the arguments are bound to [__init__] and the
  layers are built; the parameters of the new network are the weights
  drawn on the way. *)
Definition UNet_new (args : list value) : M PyModel :=
  xs <- lift (bind_args UNet_init_sig args) ;;
  match xs with
  | [VNum in_channels; VNum out_channels; VNum (PyInt num_layers)] =>
      (fun w0 =>
         (net <- build_UNet in_channels out_channels num_layers ;;
          (fun w =>
             (Ok (UNet_obj net),
              mkWorld (rng w) (initial_params net (rng w0)) (grads w) (opt w) (trace w))))
           w0)
  | _ => lift (Raise TypeError)
  end.

(** *** Library calls with an effect *)

Fixpoint draw (n : nat) (g : Gen) : list elt * Gen :=
  match n with
  | O => ([], g)
  | S n' =>
      let vg := next_normal g in
      let vsg := draw n' (snd vg) in
      (fst vg :: fst vsg, snd vsg)
  end.

(** [torch.randn(d1, ..., dn)]. *)
Definition torch_randn (s : Shape) : M tensor :=
  fun w =>
    let vg := draw (prod_dims s) (rng w) in
    (Ok (mkTensor s (fst vg) false),
     mkWorld (snd vg) (params w) (grads w) (opt w) (trace w)).

(** [torch.randn_like(t)]. *)
Definition torch_randn_like (t : tensor) : M tensor := torch_randn (shape t).

(** [model(a1, ..., an)]. *)
Definition call_model (model : PyModel) (args : list value) : M tensor :=
  emit (EvCall args) ;;; (fun w => (call model (params w) args, w)).

(** [v[t]] for an attribute value [v]. *)
Definition subscript (v : value) (t : Z) : result tensor :=
  match v with
  | VTensor s => select s t
  | _ => Raise TypeError
  end.

(** [v.to(device)]: placement does not change the elements. *)
Definition to_device (v : value) : result tensor :=
  match v with
  | VTensor s => Ok s
  | _ => Raise AttributeError
  end.

(** [optim.Adam(model.parameters(), lr=1e-4)]. *)
Definition Adam_new : M unit :=
  fun w => (Ok tt, mkWorld (rng w) (params w) (grads w) (adam_init (params w)) (trace w)).

(** [optimizer.zero_grad()]. *)
Definition zero_grad : M unit :=
  fun w => (Ok tt, mkWorld (rng w) (params w) None (opt w) (trace w)).

(** [loss.backward()]: only a one-element tensor that is attached to the
    graph can be differentiated; anything else is a [RuntimeError]. *)
Definition backward (loss : tensor) : M unit :=
  fun w =>
    if (requires_grad loss && (nelement loss =? 1)%nat)%bool
    then (Ok tt, mkWorld (rng w) (params w)
                   (Some (accumulate (grads w) (autograd (params w) loss)))
                   (opt w) (trace w))
    else (Raise RuntimeError, w).

(** [optimizer.step()]: parameters without a gradient are skipped. *)
Definition optimizer_step : M unit :=
  fun w =>
    match grads w with
    | None => (Ok tt, w)
    | Some g =>
        let po := adam_step (opt w) (params w) g in
        (Ok tt, mkWorld (rng w) (fst po) (grads w) (snd po) (trace w))
    end.

(** *** The script's functions *)

Definition diffusion_steps : Z := 1000.

(** [forward_forward(model, X_left, X_right, y)]. *)
Definition forward_forward (model : PyModel) (X_left X_right : tensor) (y : list Z)
  : M tensor :=
  X_pos_left <- lift (mask_index X_left (labels_eq y 1)) ;;
  X_neg_left <- lift (mask_index X_left (labels_eq y 0)) ;;
  X_pos_right <- lift (mask_index X_right (labels_eq y 1)) ;;
  X_neg_right <- lift (mask_index X_right (labels_eq y 0)) ;;
  if ((nelement X_pos_left =? 0)%nat || (nelement X_neg_left =? 0)%nat)%bool
  then mret (torch_tensor fzero)
  else
    out_pos <- call_model model [VTensor X_pos_left; VTensor X_pos_right] ;;
    out_neg <- call_model model [VTensor X_neg_left; VTensor X_neg_right] ;;
    d <- lift (tsub out_pos out_neg) ;;
    mret (torch_mean (tsquare d)).

(** The first two statements of the noise-level loop: the scaled noise
    and the noisy images. *)
Definition make_noisy (model : PyModel) (images : tensor) (t : Z)
  : M (tensor * tensor) :=
  z <- torch_randn_like images ;;
  sq <- lift (getattr model "sqrt_alphas_cumprod") ;;
  s_t <- lift (subscript sq t) ;;
  noise <- lift (tmul z s_t) ;;
  al <- lift (getattr model "alphas_cumprod") ;;
  a_t <- lift (subscript al t) ;;
  scaled <- lift (tmul images a_t) ;;
  noisy_images <- lift (tadd scaled noise) ;;
  mret (noise, noisy_images).

(** The three statements that follow a loss: [optimizer.zero_grad()],
    [loss.backward()], [optimizer.step()]. *)
Definition update (loss : tensor) : M unit :=
  zero_grad ;;; backward loss ;;; optimizer_step.

(** The contrastive half of one noise level: the loss and its update. *)
Definition contrastive_update (model : PyModel) (X_left X_right : tensor)
           (labels : list Z) : M tensor :=
  loss <- forward_forward model X_left X_right labels ;;
  update loss ;;;
  mret loss.

(** The third statement: the noisy images go through the model. *)
Definition noisy_forward (model : PyModel) (images : tensor) (t : Z)
  : M (tensor * tensor) :=
  nn <- make_noisy model images t ;;
  model_output <- call_model model [VTensor (snd nn); VNum (PyInt t)] ;;
  mret nn.

(** The body of [for t in range(diffusion_steps - 1, -1, -1)]. *)
Definition noise_level (model : PyModel) (images X_left X_right : tensor)
           (labels : list Z) (t : Z) : M tensor :=
  nn <- noisy_forward model images t ;;
  loss <- contrastive_update model X_left X_right labels ;;
  pred_noise <- call_model model [VTensor (snd nn); VNum (PyInt t)] ;;
  d <- lift (tsub pred_noise (fst nn)) ;;
  let loss := torch_mean (tsquare d) in
  update loss ;;;
  mret loss.

(** [loss.item()]. *)
Definition item (t : tensor) : option elt := hd_error (data t).

(** The body of [for batch_idx, (images, _) in enumerate(train_loader)]. *)
Definition train_batch (model : PyModel) (steps : Z) (epoch : Z) (n_batches : nat)
           (batch_idx : nat) (images : tensor) (labels : list Z) : M unit :=
  X_left <- lift (slice_dim2 images 0 (Some 14%nat)) ;;
  X_right <- lift (slice_dim2 images 14 None) ;;
  last <- mfor (range3 (steps - 1) (-1) (-1))
            (fun t _ =>
               loss <- noise_level model images X_left X_right labels t ;;
               mret (Some loss))
            None ;;
  if (batch_idx mod 100 =? 0)%nat
  then
    match last with
    | None => lift (Raise NameError)
    | Some loss =>
        emit (EvPrint epoch
                (batch_idx * match batch_dim images with Some b => b | None => 0 end)
                dataset_len
                (Qdiv (inject_Z (100 * Z.of_nat batch_idx))
                      (inject_Z (Z.of_nat n_batches)))
                (item loss))
    end
  else mret tt.

(** [for epoch in range(10): ...]; every epoch starts a new pass of the
    loader. *)
Definition train (model : PyModel) (steps : Z) : M unit :=
  mfor (range 10)
    (fun epoch _ =>
       batches <- (fun w =>
                     let bg := iter_loader (rng w) in
                     (Ok (fst bg),
                      mkWorld (snd bg) (params w) (grads w) (opt w) (trace w))) ;;
       mfor (combine (seq 0 (List.length batches)) batches)
         (fun ib _ =>
            train_batch model steps epoch (List.length batches)
              (fst ib) (fst (snd ib)) (snd (snd ib)))
         tt)
    tt.

(** [sample(model, noise, steps)]. *)
Definition sample (model : PyModel) (noise : tensor) (steps : Z) : M tensor :=
  alphas <- lift (getattr model "alphas_cumprod") ;;
  sq <- lift (getattr model "sqrt_alphas_cumprod") ;;
  sqrt_alphas_cumprod <- lift (to_device sq) ;;
  mfor (range3 (steps - 1) (-1) (-1))
    (fun i noise =>
       out <- call_model model [VTensor noise; VNum (PyInt i)] ;;
       s_i <- lift (select sqrt_alphas_cumprod i) ;;
       lift (tmul out s_i))
    noise.

(** The module-level statements after the data loader is set up. *)
Definition after_construction (model : PyModel) : M tensor :=
  Adam_new ;;;
  train model diffusion_steps ;;;
  noise <- torch_randn [64; 1; 28; 28]%nat ;;
  sample model noise diffusion_steps.

(** The module-level statements from [model = UNet()] on.  The data
    loader set up before it is the runtime's [iter_loader]. *)
Definition script : M tensor :=
  model <- UNet_new [] ;;
  after_construction model.

(** A network built from [args] and run once on [x]: [UNet(args)(x)]. *)
Definition build_and_run (args : list value) (x : tensor) : M tensor :=
  model <- UNet_new args ;;
  call_model model [VTensor x].

(** *** The sampling contract in the specification's words

    Starting from [t = T - 1] and going down to [t = 0], the running
    tensor [x] is replaced by [network(x, t) * sqrt_alphas_cumprod[t]];
    what is left after the step [t = 0] is the sample. *)
Definition denoise_step (model : PyModel) (sched : tensor) (t : Z) (x : tensor)
  : M tensor :=
  out <- call_model model [VTensor x; VNum (PyInt t)] ;;
  s_t <- lift (select sched t) ;;
  lift (tmul out s_t).

Fixpoint denoise_from (model : PyModel) (sched : tensor) (T : nat) (x : tensor)
  : M tensor :=
  match T with
  | O => mret x
  | S t => x' <- denoise_step model sched (Z.of_nat t) x ;;
           denoise_from model sched t x'
  end.

(** The body of the loop of [sample], as it is written there. *)
Definition sample_body (model : PyModel) (sched : tensor) (i : Z) (noise : tensor)
  : M tensor :=
  out <- call_model model [VTensor noise; VNum (PyInt i)] ;;
  s_i <- lift (select sched i) ;;
  lift (tmul out s_i).

(** The noise step a logged model call was made for, when its second
    argument is a Python [int]. *)
Definition step_of (e : Event) : option Z :=
  match e with
  | EvCall [_; VNum (PyInt t)] => Some t
  | _ => None
  end.

(** *** Determinism

    A computation whose result is fixed by the parameters, and which
    leaves the parameters and the generator as they are. *)
Definition generator_free {A} (c : M A) : Prop :=
  forall w1 w2,
    params w1 = params w2 ->
    fst (c w1) = fst (c w2) /\
    params (snd (c w1)) = params w1 /\
    rng (snd (c w1)) = rng w1.

End Program.

(* ------------------------------------------------------------------ *)
(** ** A small runtime to run the definitions on *)

Module Demo.

(** Exact rational arithmetic as the element type. *)
#[export, refine] Instance Q_scalar : Scalar Q := {
  fzero := 0%Q;
  fadd := Qplus;
  fsub := Qminus;
  fmul := Qmult;
  fdiv_count := fun s n => Qdiv s (inject_Z (Z.of_nat n))
}.
Proof.
  intros [an ad] [bn bd].
  unfold Qminus, Qplus, Qopp, Qmult; simpl.
  f_equal; [ring | now rewrite (Pos.mul_comm ad bd)].
Defined.

(** Kernels that respect the shape rules and fill in zeros. *)
Definition zeros (s : Shape) (rg : bool) : Tensor Q :=
  mkTensor s (repeat 0%Q (prod_dims s)) rg.

#[export] Instance zero_kernels : Backend nat (Tensor Q) := {
  run_layer := fun _ l x => (s <- layer_shape l (shape x) ;; Ok (zeros s true))%py;
  cat_dim1 := fun x y =>
    (s <- cat_shape (shape x) (shape y) ;;
     Ok (zeros s (requires_grad x || requires_grad y)))%py
}.

Definition batch0 : Tensor Q :=
  mkTensor [2; 1; 1; 2]%nat [1; 2; 3; 4]%Q false.

(** The generator is a counter, the parameters count the updates. *)
#[export] Instance runtime : Runtime := {
  elt := Q;
  Gen := nat;
  next_normal := fun g => (inject_Z (Z.of_nat g), S g);
  Params := nat;
  Grads := unit;
  OptState := nat;
  reset_parameters := fun _ g => S g;
  initial_params := fun _ _ => 0%nat;
  autograd := fun _ _ => tt;
  accumulate := fun _ g => g;
  adam_init := fun _ => 0%nat;
  adam_step := fun o p _ => (S p, S o);
  iter_loader := fun g => ([(batch0, [1; 0]%Z)], S g);
  dataset_len := 2
}.

Definition w0 : World := mkWorld 0%nat 0%nat None 0%nat [].
Definition w1 : World := mkWorld 7%nat 0%nat None 3%nat [].

Definition images0 : Tensor elt := batch0.
Definition sched_a : Tensor elt := mkTensor [2]%nat [1 # 2; 1 # 4]%Q false.
Definition sched_s : Tensor elt := mkTensor [2]%nat [1 # 3; 1 # 5]%Q false.

(** A model object with the interface the training loop and [sample]
    use: the two schedule attributes, and a call on a tensor and a
    second argument that returns the tensor attached to the graph. *)
Definition echo : PyModel :=
  mkModel
    (fun name =>
       if String.eqb name "alphas_cumprod" then Ok (VTensor sched_a)
       else if String.eqb name "sqrt_alphas_cumprod" then Ok (VTensor sched_s)
       else Raise AttributeError)
    (fun _ args =>
       match args with
       | [VTensor x; _] => Ok (mkTensor (shape x) (data x) true)
       | _ => Raise TypeError
       end).

(** The layers [__init__] would hold for [UNet(1, 2, num_layers=1)] if
    the float [1.0] of its upsampling stage were the integer 1. *)
Definition net1 : UNet :=
  mkUNet
    [[Conv2d 1 2 3 1; LeakyReLU; Conv2d 2 2 3 1; LeakyReLU; MaxPool2d 2]]
    [Conv2d 2 2 3 1; LeakyReLU; Conv2d 2 2 3 1; LeakyReLU]
    [[ConvTranspose2d 4 1 2 2; LeakyReLU; Conv2d 1 1 3 1; LeakyReLU;
      Conv2d 1 1 3 1; LeakyReLU]]
    (Conv2d 2 2 3 1).

Definition left0 : Tensor elt := mkTensor [2; 1; 1; 1]%nat [1; 3]%Q false.
Definition right0 : Tensor elt := mkTensor [2; 1; 1; 1]%nat [2; 4]%Q false.
Definition right1 : Tensor elt := mkTensor [2; 1; 1; 1]%nat [5; 6]%Q false.

Definition left5 : Tensor elt := mkTensor [5; 1; 1; 1]%nat [1; 2; 3; 4; 5]%Q false.
Definition right5 : Tensor elt := mkTensor [5; 1; 1; 1]%nat [6; 7; 8; 9; 10]%Q false.

(** A batch of two 28 x 28 images, all zero. *)
Definition mnist2 : Tensor elt := zeros [2; 1; 28; 28]%nat false.

(** A schedule that covers one step only. *)
Definition sched1 : Tensor elt := mkTensor [1]%nat [1 # 2]%Q false.

Definition short_schedule : PyModel :=
  mkModel
    (fun name =>
       if String.eqb name "alphas_cumprod" then Ok (VTensor sched1)
       else if String.eqb name "sqrt_alphas_cumprod" then Ok (VTensor sched1)
       else Raise AttributeError)
    (fun _ args =>
       match args with
       | [VTensor x; _] => Ok (mkTensor (shape x) (data x) true)
       | _ => Raise TypeError
       end).

(** Layers on which the forward pass goes through: one pooling stage
    down, and an upsampling stage that keeps the size of its input. *)
Definition net_ok : UNet :=
  mkUNet
    [[Conv2d 1 2 3 1; MaxPool2d 2]]
    [Conv2d 2 2 3 1]
    [[Conv2d 2 2 3 1]]
    (Conv2d 4 1 3 1).

(** A model object that answers a call with its second argument. *)
Definition second : PyModel :=
  mkModel
    (fun _ => Raise AttributeError)
    (fun _ args =>
       match args with
       | [_; VTensor x] => Ok (mkTensor (shape x) (data x) true)
       | _ => Raise TypeError
       end).

(** The same runtime with a loader that has no batch to deliver. *)
Definition empty_runtime : Runtime := {|
  elt := Q;
  elt_scalar := Q_scalar;
  Gen := nat;
  next_normal := fun g => (inject_Z (Z.of_nat g), S g);
  Params := nat;
  Grads := unit;
  OptState := nat;
  reset_parameters := fun _ g => S g;
  initial_params := fun _ _ => 0%nat;
  autograd := fun _ _ => tt;
  accumulate := fun _ g => g;
  adam_init := fun _ => 0%nat;
  adam_step := fun o p _ => (S p, S o);
  kernels := zero_kernels;
  iter_loader := fun g => ([], S g);
  dataset_len := 0
|}.

Definition w_empty : @World empty_runtime :=
  @mkWorld empty_runtime 0%nat 0%nat None 0%nat [].

End Demo.

(* ------------------------------------------------------------------ *)
(** ** Runs on concrete inputs *)

Example range_down : range3 (3 - 1) (-1) (-1) = [2; 1; 0]%Z.
Proof. reflexivity. Qed.

Example pow_negative : pow 2 (0 - 1) = PyFloat (1 # 2).
Proof. reflexivity. Qed.

Example init_1_2_1 : UNet_init (PyInt 1) (PyInt 2) 1 = Raise TypeError.
Proof. reflexivity. Qed.

Example init_1_1_5 : UNet_init (PyInt 1) (PyInt 1) 5 = Raise ValueError.
Proof. reflexivity. Qed.

(** The forward pass on the layers of [Demo.net1], shapes only: the first
    upsampling stage meets 2 channels where it expects 4. *)
Example forward_net1_shape :
  forward (BK := ShapeBackend) tt Demo.net1 [1; 1; 28; 28]%nat = Raise RuntimeError.
Proof. reflexivity. Qed.

(** With the channel counts made to agree, the skip connection is still
    the pooled activation, half the size of the upsampled one. *)
Example skip_connection_mismatch :
  (xd <- down_pass (BK := ShapeBackend) tt (down_layers Demo.net1) [1; 1; 28; 28]%nat [] ;;
   x1 <- run_sequential (BK := ShapeBackend) tt
           [ConvTranspose2d 2 1 2 2; LeakyReLU; Conv2d 1 1 3 1; LeakyReLU] (fst xd) ;;
   s <- neg_index (snd xd) 1 ;;
   Ok (x1, s))%py
  = Ok ([1; 1; 28; 28]%nat, [1; 2; 14; 14]%nat).
Proof. reflexivity. Qed.

Example ff_all_ones :
  forward_forward Demo.echo Demo.left0 Demo.right0 [1; 1]%Z Demo.w0
  = (Ok (torch_tensor 0%Q), Demo.w0).
Proof. reflexivity. Qed.

Example ff_mixed :
  fst (forward_forward Demo.echo Demo.left0 Demo.right0 [1; 0]%Z Demo.w0)
  = Ok (mkTensor [] [Qdiv (Qplus 0 (Qmult (Qminus 1 3) (Qminus 1 3))) (inject_Z 1)] true).
Proof. reflexivity. Qed.

Example sample_echo :
  fst (sample Demo.echo Demo.left0 2 Demo.w0)
  = Ok (mkTensor [2; 1; 1; 1]%nat
          [Qmult (Qmult 1 (1 # 5)) (1 # 3); Qmult (Qmult 3 (1 # 5)) (1 # 3)] true).
Proof. reflexivity. Qed.

(** The constructor draws before it raises: when stage 0 of the
    upsampling loop of [UNet(1, 1)] is refused, the 24 convolutions of
    the five downsampling stages, the bottleneck and the upsampling
    stages 4 to 1 have initialised their weights, one step of the demo
    generator each. *)
Example constructor_draws_before_raising :
  build_and_run [VNum (PyInt 1); VNum (PyInt 1)] Demo.images0 Demo.w1
  = (Raise ValueError, mkWorld (RT := Demo.runtime) (7 + 24)%nat 0%nat None 3%nat []).
Proof. reflexivity. Qed.

(** On a [UNet] instance the scoring step stops at the first call. *)
Example ff_UNet_mixed :
  fst (forward_forward (UNet_obj Demo.net1) Demo.left0 Demo.right0 [1; 0]%Z Demo.w0)
  = Raise TypeError.
Proof. reflexivity. Qed.

Example sample_UNet :
  sample (RT := Demo.runtime) (UNet_obj Demo.net1) Demo.left0 2 Demo.w0
  = (Raise AttributeError, Demo.w0).
Proof. reflexivity. Qed.

(* ------------------------------------------------------------------ *)
(** ** The constructor *)

Unset Implicit Arguments.

Section ConstructorFacts.

Lemma for_collect_app_raises {A B} (f : A -> result B) (l : list A) (x : A) :
  is_ok (f x) = false -> is_ok (for_collect (l ++ [x]) f) = false.
Proof.
  intros Hx. induction l as [|a l IH]; simpl.
  - destruct (f x); [discriminate | reflexivity].
  - destruct (f a); simpl; [|reflexivity].
    destruct (for_collect (l ++ [x]) f); simpl; [discriminate | reflexivity].
Qed.

Lemma not_ok_raises {A} (r : result A) : is_ok r = false -> exists e, r = Raise e.
Proof. destruct r; [discriminate | eauto]. Qed.

Lemma range_len_up (n : Z) : range_len 0 n 1 = Z.to_nat n.
Proof.
  unfold range_len; simpl.
  replace (n - 0 + 1 - 1)%Z with n by lia. now rewrite Z.div_1_r.
Qed.

Lemma range_cons (n : Z) :
  (1 <= n)%Z -> exists l, range n = 0%Z :: l.
Proof.
  intros Hn. unfold range, range3. rewrite range_len_up.
  destruct (Z.to_nat n) as [|m] eqn:E; [lia|].
  simpl. eauto.
Qed.

Lemma range_nil (n : Z) : (n <= 0)%Z -> range n = [].
Proof.
  intros Hn. unfold range, range3. rewrite range_len_up.
  replace (Z.to_nat n) with 0%nat by lia. reflexivity.
Qed.

(** Stage 0 is the last one the upsampling loop visits. *)
Lemma reversed_range_last (n : Z) :
  (1 <= n)%Z -> exists l, reversed (range n) = l ++ [0%Z].
Proof.
  intros Hn. destruct (@range_cons n Hn) as [l ->].
  exists (rev l). reflexivity.
Qed.

(** A float times anything is a float. *)
Lemma mul_float_l (q : Q) (y : num) : is_float (mul (PyFloat q) y) = true.
Proof. destruct y; reflexivity. Qed.

Lemma pow_negative_float (b e : Z) : (e < 0)%Z -> is_float (pow b e) = true.
Proof.
  intros He. unfold pow. destruct (0 <=? e)%Z eqn:E; [lia | reflexivity].
Qed.

Lemma mul_pow_negative_float (e : Z) (y : num) :
  (e < 0)%Z -> is_float (mul (pow 2 e) y) = true.
Proof.
  intros He. pose proof (@pow_negative_float 2 e He) as H.
  destruct (pow 2 e); [discriminate | apply mul_float_l].
Qed.

(** Both convolution constructors refuse a float channel count, on
    either side. *)
Lemma conv_channels_float_out (i o : num) :
  is_float o = true -> is_ok (conv_channels i o) = false.
Proof.
  intros Ho. destruct o as [|q]; [discriminate|].
  unfold conv_channels.
  destruct (negb (divisible_by_groups i)); [reflexivity|].
  destruct (negb (divisible_by_groups (PyFloat q))); [reflexivity|].
  destruct i; reflexivity.
Qed.

Lemma conv_channels_float_in (i o : num) :
  is_float i = true -> is_ok (conv_channels i o) = false.
Proof.
  intros Hi. destruct i as [|q]; [discriminate|].
  unfold conv_channels.
  destruct (negb (divisible_by_groups (PyFloat q))); [reflexivity|].
  destruct (negb (divisible_by_groups o)); reflexivity.
Qed.

Lemma ConvTranspose2d_float_out (i o : num) (k s : nat) :
  is_float o = true -> is_ok (nn_ConvTranspose2d i o k s) = false.
Proof.
  intros Ho. unfold nn_ConvTranspose2d.
  pose proof (@conv_channels_float_out i o Ho) as H.
  destruct (conv_channels i o); [discriminate | reflexivity].
Qed.

Lemma Conv2d_float_in (i o : num) (k pd : nat) :
  is_float i = true -> is_ok (nn_Conv2d i o k pd) = false.
Proof.
  intros Hi. unfold nn_Conv2d.
  pose proof (@conv_channels_float_in i o Hi) as H.
  destruct (conv_channels i o); [discriminate | reflexivity].
Qed.

Lemma up_block_0_raises (out_channels : num) (num_layers : Z) :
  is_ok (up_block out_channels num_layers 0) = false.
Proof.
  unfold up_block.
  assert (H : is_float (up_out_ch out_channels 0) = true)
    by (apply mul_pow_negative_float; lia).
  pose proof (@ConvTranspose2d_float_out (up_in_ch out_channels num_layers 0) _ 2 2 H) as Hc.
  destruct (nn_ConvTranspose2d _ _ 2 2); [discriminate | reflexivity].
Qed.

Lemma bottleneck_block_raises (out_channels : num) (num_layers : Z) :
  (num_layers <= 0)%Z -> is_ok (bottleneck_block out_channels num_layers) = false.
Proof.
  intros Hn. unfold bottleneck_block.
  assert (H : is_float (mul (pow 2 (num_layers - 1)) out_channels) = true)
    by (apply mul_pow_negative_float; lia).
  pose proof (@Conv2d_float_in _ out_channels 3 1 H) as Hc.
  destruct (nn_Conv2d _ _ 3 1); [discriminate | reflexivity].
Qed.

(** No choice of arguments gets through [__init__]. *)
Lemma UNet_init_raises (in_channels out_channels : num) (num_layers : Z) :
  exists e, UNet_init in_channels out_channels num_layers = Raise e.
Proof.
  apply not_ok_raises. unfold UNet_init.
  destruct (for_collect (range num_layers) _) as [downs|]; [simpl|reflexivity].
  destruct (Z_le_gt_dec num_layers 0) as [Hn|Hn].
  - pose proof (@bottleneck_block_raises out_channels num_layers Hn) as Hb.
    destruct (bottleneck_block _ _); [discriminate | reflexivity].
  - destruct (bottleneck_block _ _); [simpl|reflexivity].
    destruct (@reversed_range_last num_layers ltac:(lia)) as [l ->].
    pose proof (@for_collect_app_raises _ _ (up_block out_channels num_layers) l 0%Z
                  (up_block_0_raises out_channels num_layers)) as Hu.
    destruct (for_collect (l ++ [0%Z]) _); [discriminate | reflexivity].
Qed.

End ConstructorFacts.

(** C8.  For all integers [in_channels] and [out_channels] and every
    [num_layers >= 1], constructing the network fails: the upsampling loop
    ends on stage [i = 0], whose output channel count [2 ** (i - 1) *
    out_channels] is the float [out_channels / 2]; the transposed
    convolution constructor rejects it whatever its other arguments are,
    so [UNet.__init__] raises and returns no network. *)
Theorem UNet_init_fails_at_last_up_stage :
  forall in_channels out_channels num_layers : Z,
    (1 <= num_layers)%Z ->
    (exists l, reversed (range num_layers) = l ++ [0%Z]) /\
    (exists q, up_out_ch (PyInt out_channels) 0 = PyFloat q /\
               Qeq q (Qdiv (inject_Z out_channels) (inject_Z 2))) /\
    (forall in_ch k s,
        is_ok (nn_ConvTranspose2d in_ch (up_out_ch (PyInt out_channels) 0) k s) = false) /\
    (exists e, UNet_init (PyInt in_channels) (PyInt out_channels) num_layers = Raise e).
Proof.
  intros i o n Hn. repeat split.
  - now apply reversed_range_last.
  - eexists. split; [reflexivity|].
    simpl. unfold Qeq, Qdiv, Qmult, Qinv; simpl. destruct o; lia.
  - intros. apply ConvTranspose2d_float_out, mul_pow_negative_float. lia.
  - apply UNet_init_raises.
Qed.

Lemma UNet_init_fails_at_last_up_stage_witness :
  (exists l, reversed (range 5) = l ++ [0%Z]) /\
  (exists q, up_out_ch (PyInt 1) 0 = PyFloat q /\
             Qeq q (Qdiv (inject_Z 1) (inject_Z 2))) /\
  (forall in_ch k s,
      is_ok (nn_ConvTranspose2d in_ch (up_out_ch (PyInt 1) 0) k s) = false) /\
  (exists e, UNet_init (PyInt 1) (PyInt 1) 5 = Raise e).
Proof. apply (UNet_init_fails_at_last_up_stage 1%Z 1%Z 5%Z). lia. Defined.

(* ------------------------------------------------------------------ *)
(** ** Indexing and broadcasting *)

Section TensorFacts.

Context {F : Type} {SC : Scalar F}.

Lemma mask_index_cases (X : Tensor F) (mask : list bool) :
  mask_index X mask =
  if mask_ok X mask
  then Ok (mkTensor (List.length (true_positions mask 0) :: tl (shape X))
             (flat_map (fun i => block (prod_dims (tl (shape X))) i (data X))
                       (true_positions mask 0))
             (requires_grad X))
  else Raise IndexError.
Proof.
  unfold mask_index, mask_ok. destruct (shape X) as [|b rest]; [reflexivity|].
  simpl. destruct (b =? List.length mask)%nat; reflexivity.
Qed.

Lemma mask_ok_batch (X : Tensor F) (mask : list bool) :
  batch_dim X = Some (List.length mask) -> mask_ok X mask = true.
Proof.
  unfold batch_dim, mask_ok. destruct (shape X); simpl; [discriminate|].
  intros [= ->]. apply Nat.eqb_refl.
Qed.

Lemma mask_ok_same_batch (X1 X2 : Tensor F) (mask : list bool) :
  batch_dim X1 = batch_dim X2 -> mask_ok X1 mask = mask_ok X2 mask.
Proof.
  unfold batch_dim, mask_ok.
  destruct (shape X1), (shape X2); simpl; try discriminate; [reflexivity|].
  now intros [= ->].
Qed.

Lemma labels_eq_length (y : list Z) (c : Z) :
  List.length (labels_eq y c) = List.length y.
Proof. apply length_map. Qed.

Lemma true_positions_absent (y : list Z) (c : Z) :
  ~ In c y -> forall i, true_positions (labels_eq y c) i = [].
Proof.
  induction y as [|l y IH]; intros Hc i; [reflexivity|].
  simpl. destruct (Z.eqb_spec c l) as [->|_].
  - exfalso. apply Hc. now left.
  - apply IH. intros H. apply Hc. now right.
Qed.

Lemma swap_labels_pos (y : list Z) : labels_eq (swap_labels y) 1 = labels_eq y 0.
Proof.
  unfold labels_eq, swap_labels. rewrite map_map. apply map_ext. intros l.
  destruct (Z.eqb_spec l 1) as [->|H1]; [reflexivity|].
  destruct (Z.eqb_spec l 0) as [->|H0]; [reflexivity|].
  destruct (Z.eqb_spec 1 l), (Z.eqb_spec 0 l); congruence.
Qed.

Lemma swap_labels_neg (y : list Z) : labels_eq (swap_labels y) 0 = labels_eq y 1.
Proof.
  unfold labels_eq, swap_labels. rewrite map_map. apply map_ext. intros l.
  destruct (Z.eqb_spec l 1) as [->|H1]; [reflexivity|].
  destruct (Z.eqb_spec l 0) as [->|H0]; [reflexivity|].
  destruct (Z.eqb_spec 1 l), (Z.eqb_spec 0 l); congruence.
Qed.

Lemma bshape_rev_sym (a : Shape) : forall b, bshape_rev a b = bshape_rev b a.
Proof.
  induction a as [|x a IH]; intros [|y b]; try reflexivity.
  simpl. rewrite (IH b).
  destruct (Nat.eqb_spec x y) as [->|Hxy].
  - now rewrite Nat.eqb_refl.
  - destruct (Nat.eqb_spec y x) as [E|_]; [congruence|].
    destruct (Nat.eqb_spec x 1) as [->|Hx], (Nat.eqb_spec y 1) as [->|Hy];
      congruence.
Qed.

Lemma bshape_sym (a b : Shape) : bshape a b = bshape b a.
Proof. unfold bshape. now rewrite bshape_rev_sym. Qed.

Lemma bshape_rev_nil_r (a : Shape) : bshape_rev a [] = Some a.
Proof. destruct a; reflexivity. Qed.

Lemma bshape_rev_refl (a : Shape) : bshape_rev a a = Some a.
Proof.
  induction a as [|x a IH]; [reflexivity|].
  simpl. now rewrite Nat.eqb_refl, IH.
Qed.

(** A 0-dimensional operand takes the other operand's shape. *)
Lemma bshape_scalar_r (a : Shape) : bshape a [] = Some a.
Proof. unfold bshape. simpl. rewrite bshape_rev_nil_r. simpl. now rewrite rev_involutive. Qed.

Lemma bshape_refl (a : Shape) : bshape a a = Some a.
Proof. unfold bshape. rewrite bshape_rev_refl. simpl. now rewrite rev_involutive. Qed.

Lemma bmap2_scalar_r (f : F -> F -> F) (a s : Tensor F) :
  shape s = [] -> exists r, bmap2 f a s = Ok r /\ shape r = shape a.
Proof.
  intros Hs. unfold bmap2. rewrite Hs, bshape_scalar_r. eexists. split; reflexivity.
Qed.

Lemma bmap2_same_shape (f : F -> F -> F) (a b : Tensor F) :
  shape a = shape b -> exists r, bmap2 f a b = Ok r /\ shape r = shape a.
Proof.
  intros Hs. unfold bmap2. rewrite <- Hs, bshape_refl. eexists. split; reflexivity.
Qed.

(** Exchanging the operands of a difference leaves its square as it was. *)
Lemma tsub_swap (a b d : Tensor F) :
  tsub a b = Ok d -> exists d', tsub b a = Ok d' /\ tsquare d' = tsquare d.
Proof.
  unfold tsub, bmap2. rewrite (bshape_sym (shape b) (shape a)).
  destruct (bshape (shape a) (shape b)) as [s|]; [|discriminate].
  intros [= <-]. eexists. split; [reflexivity|].
  unfold tsquare; simpl. f_equal.
  - rewrite !map_map. apply map_ext. intros idx. apply fsq_sub_swap.
  - apply orb_comm.
Qed.

End TensorFacts.

(* ------------------------------------------------------------------ *)
(** ** The contrastive loss *)

Section LossFacts.

Context {RT : Runtime}.

(** Unfolds the monad down to pairs. *)
Ltac run := unfold mbind, lift, mret, call_model, emit in *; simpl in *.

(** With one side of the partition empty, the loss is the constant and
    nothing else happens. *)
Lemma forward_forward_empty (model : PyModel) (X_left X_right : Tensor elt)
      (y : list Z) (w : World) :
  batch_dim X_left = Some (List.length y) ->
  batch_dim X_right = Some (List.length y) ->
  ~ In 1%Z y \/ ~ In 0%Z y ->
  forward_forward model X_left X_right y w = (Ok (torch_tensor fzero), w).
Proof.
  intros Hl Hr Hy. unfold forward_forward. run.
  rewrite !mask_index_cases.
  rewrite !mask_ok_batch by (now rewrite labels_eq_length).
  destruct Hy as [Hy|Hy]; rewrite (true_positions_absent y _ Hy); simpl.
  - reflexivity.
  - now rewrite orb_true_r.
Qed.

(** A [UNet] instance called with two arguments raises before its
    forward pass starts. *)
Lemma UNet_call_two_args (net : UNet) (p : Params) (a b : value) :
  UNet_call net p [a; b] = Raise TypeError.
Proof. reflexivity. Qed.

(** What the loss evaluates to on a [UNet] instance. *)
Lemma forward_forward_UNet (net : UNet) (X_left X_right : Tensor elt)
      (y : list Z) (w : World) :
  fst (forward_forward (UNet_obj net) X_left X_right y w) =
  if (mask_ok X_left (labels_eq y 1) && mask_ok X_left (labels_eq y 0)
      && mask_ok X_right (labels_eq y 1) && mask_ok X_right (labels_eq y 0))%bool
  then
    if ((List.length (true_positions (labels_eq y 1) 0) * prod_dims (tl (shape X_left))
         =? 0)%nat
        || (List.length (true_positions (labels_eq y 0) 0) * prod_dims (tl (shape X_left))
            =? 0)%nat)%bool
    then Ok (torch_tensor fzero)
    else Raise TypeError
  else Raise IndexError.
Proof.
  unfold forward_forward. run. rewrite !mask_index_cases.
  destruct (mask_ok X_left (labels_eq y 1)); [|reflexivity].
  destruct (mask_ok X_left (labels_eq y 0)); [|reflexivity].
  destruct (mask_ok X_right (labels_eq y 1)); [|reflexivity].
  destruct (mask_ok X_right (labels_eq y 0)); [|reflexivity].
  simpl. unfold nelement; simpl.
  destruct (_ || _)%bool; reflexivity.
Qed.

Lemma forward_forward_UNet_value (net : UNet) (X_left X_right : Tensor elt)
      (y : list Z) (w : World) (v : Tensor elt) :
  fst (forward_forward (UNet_obj net) X_left X_right y w) = Ok v ->
  v = torch_tensor fzero.
Proof.
  rewrite forward_forward_UNet.
  destruct (_ && _)%bool; [|discriminate].
  destruct (_ || _)%bool; [|discriminate].
  now intros [= <-].
Qed.

(** The outcome of [forward_forward] as a function of the parameters:
    the four partitions, the test for an empty one, the two calls. *)
Lemma forward_forward_outcome (model : PyModel) (X_left X_right : Tensor elt)
      (y : list Z) (w : World) :
  fst (forward_forward model X_left X_right y w) =
  (X_pos_left <- mask_index X_left (labels_eq y 1) ;;
   X_neg_left <- mask_index X_left (labels_eq y 0) ;;
   X_pos_right <- mask_index X_right (labels_eq y 1) ;;
   X_neg_right <- mask_index X_right (labels_eq y 0) ;;
   if ((nelement X_pos_left =? 0)%nat || (nelement X_neg_left =? 0)%nat)%bool
   then Ok (torch_tensor fzero)
   else
     out_pos <- call model (params w) [VTensor X_pos_left; VTensor X_pos_right] ;;
     out_neg <- call model (params w) [VTensor X_neg_left; VTensor X_neg_right] ;;
     d <- tsub out_pos out_neg ;;
     Ok (torch_mean (tsquare d)))%py.
Proof.
  unfold forward_forward. run.
  destruct (mask_index X_left (labels_eq y 1)) as [pl|]; [|reflexivity].
  destruct (mask_index X_left (labels_eq y 0)) as [nl|]; [|reflexivity].
  destruct (mask_index X_right (labels_eq y 1)) as [pr|]; [|reflexivity].
  destruct (mask_index X_right (labels_eq y 0)) as [nr|]; [|reflexivity].
  simpl. destruct (_ || _)%bool; [reflexivity|]. simpl.
  destruct (call model (params w) [VTensor pl; VTensor pr]); [|reflexivity]. simpl.
  destruct (call model (params w) [VTensor nl; VTensor nr]); [|reflexivity]. simpl.
  destruct (tsub _ _); reflexivity.
Qed.

(** Two tensors of one batch size take a mask alike: both are indexed,
    or both raise. *)
Lemma mask_index_same_batch (X1 X2 : Tensor elt) (mask : list bool) :
  batch_dim X1 = batch_dim X2 ->
  (exists a b, mask_index X1 mask = Ok a /\ mask_index X2 mask = Ok b) \/
  (mask_index X1 mask = Raise IndexError /\ mask_index X2 mask = Raise IndexError).
Proof.
  intros Hb. rewrite !mask_index_cases, (mask_ok_same_batch X1 X2 mask Hb).
  destruct (mask_ok X2 mask); [left; eauto | right; split; reflexivity].
Qed.

(** Where the scoring step is reached, the first call is logged with the
    two positive partitions. *)
Lemma forward_forward_first_call (model : PyModel) (X_left X_right : Tensor elt)
      (y : list Z) (w : World) (pl nl pr nr : Tensor elt) :
  mask_index X_left (labels_eq y 1) = Ok pl ->
  mask_index X_left (labels_eq y 0) = Ok nl ->
  mask_index X_right (labels_eq y 1) = Ok pr ->
  mask_index X_right (labels_eq y 0) = Ok nr ->
  ((nelement pl =? 0)%nat || (nelement nl =? 0)%nat)%bool = false ->
  exists rest,
    trace (snd (forward_forward model X_left X_right y w))
    = trace w ++ EvCall [VTensor pl; VTensor pr] :: rest /\
    (forall out, call model (params w) [VTensor pl; VTensor pr] = Ok out ->
                 hd_error rest = Some (EvCall [VTensor nl; VTensor nr])).
Proof.
  intros Hpl Hnl Hpr Hnr Hne. unfold forward_forward. run.
  rewrite Hpl, Hnl, Hpr, Hnr. simpl. rewrite Hne. simpl.
  destruct (call model (params w) [VTensor pl; VTensor pr]) as [o1|]; simpl.
  - destruct (call model (params w) [VTensor nl; VTensor nr]) as [o2|]; simpl.
    + destruct (tsub _ _); simpl; rewrite <- app_assoc; eexists;
        (split; [reflexivity | intros; reflexivity]).
    + rewrite <- app_assoc. eexists. split; [reflexivity | intros; reflexivity].
  - exists []. split; [reflexivity | discriminate].
Qed.

End LossFacts.

(** C1.  On a batch (left half, right half and labels of one batch size)
    whose labels contain no 1 or contain no 0, [forward_forward] returns
    the scalar tensor 0.0, raises nothing and has no effect, whatever the
    model is; a batch labelled 1 throughout is such a batch. *)
Theorem forward_forward_empty_partition_zero :
  forall (RT : Runtime) (model : PyModel) (X_left X_right : Tensor elt)
         (y : list Z) (w : World),
    batch_dim X_left = Some (List.length y) ->
    batch_dim X_right = Some (List.length y) ->
    ~ In 1%Z y \/ ~ In 0%Z y ->
    forward_forward model X_left X_right y w = (Ok (mkTensor [] [fzero] false), w).
Proof.
  intros RT model Xl Xr y w Hl Hr Hy.
  apply (forward_forward_empty model Xl Xr y w Hl Hr Hy).
Qed.

Lemma forward_forward_empty_partition_zero_witness :
  forward_forward Demo.echo Demo.left0 Demo.right0 [1; 1]%Z Demo.w0
  = (Ok (mkTensor [] [0%Q] false), Demo.w0).
Proof.
  apply (forward_forward_empty_partition_zero Demo.runtime Demo.echo
           Demo.left0 Demo.right0 [1; 1]%Z Demo.w0).
  - reflexivity.
  - reflexivity.
  - right. simpl. intros [H|[H|[]]]; discriminate.
Defined.

(** C3, as the claim has it, fails: lines 103 and 104 hand the right
    partitions to the model.  On a model that scores its second argument,
    two runs that differ in the right halves alone return the losses 4
    and 1. *)
Lemma forward_forward_right_half_reaches_loss :
  fst (forward_forward Demo.second Demo.left0 Demo.right0 [1; 0]%Z Demo.w0)
  = Ok (mkTensor [] [4%Q] true) /\
  fst (forward_forward Demo.second Demo.left0 Demo.right1 [1; 0]%Z Demo.w0)
  = Ok (mkTensor [] [1%Q] true) /\
  fst (forward_forward Demo.second Demo.left0 Demo.right0 [1; 0]%Z Demo.w0)
  <> fst (forward_forward Demo.second Demo.left0 Demo.right1 [1; 0]%Z Demo.w0).
Proof.
  split; [vm_compute; reflexivity|]. split; [vm_compute; reflexivity|].
  vm_compute. discriminate.
Qed.

(** C3.  The right halves reach the loss through the model and in no
    other way.  Where the scoring step is reached, the model is called
    on the positive left and right partitions and then, if that call
    returns, on the negative ones.  For a model whose answer to a call
    does not depend on its second argument, two runs that differ in the
    right halves alone, these being of one batch size, end the same way:
    with the same loss, or with the same exception. *)
Theorem forward_forward_right_half_through_model :
  forall (RT : Runtime) (model : PyModel) (X_left X_right1 X_right2 : Tensor elt)
         (y : list Z) (w : World),
    (forall pl nl pr nr : Tensor elt,
        mask_index X_left (labels_eq y 1) = Ok pl ->
        mask_index X_left (labels_eq y 0) = Ok nl ->
        mask_index X_right1 (labels_eq y 1) = Ok pr ->
        mask_index X_right1 (labels_eq y 0) = Ok nr ->
        ((nelement pl =? 0)%nat || (nelement nl =? 0)%nat)%bool = false ->
        exists rest,
          trace (snd (forward_forward model X_left X_right1 y w))
          = trace w ++ EvCall [VTensor pl; VTensor pr] :: rest /\
          (forall out, call model (params w) [VTensor pl; VTensor pr] = Ok out ->
                       hd_error rest = Some (EvCall [VTensor nl; VTensor nr]))) /\
    ((forall (p : Params) (a b1 b2 : value),
         call model p [a; b1] = call model p [a; b2]) ->
     batch_dim X_right1 = batch_dim X_right2 ->
     fst (forward_forward model X_left X_right1 y w) =
     fst (forward_forward model X_left X_right2 y w)).
Proof.
  intros RT model Xl Xr1 Xr2 y w. split.
  - intros pl nl pr nr. apply forward_forward_first_call.
  - intros Hm Hb. rewrite !forward_forward_outcome.
    destruct (mask_index Xl (labels_eq y 1)) as [pl|]; [|reflexivity].
    destruct (mask_index Xl (labels_eq y 0)) as [nl|]; [|reflexivity].
    cbn [rbind].
    destruct (mask_index_same_batch Xr1 Xr2 (labels_eq y 1) Hb)
      as [(pr1 & pr2 & -> & ->) | [-> ->]]; [|reflexivity].
    destruct (mask_index_same_batch Xr1 Xr2 (labels_eq y 0) Hb)
      as [(nr1 & nr2 & -> & ->) | [-> ->]]; [|reflexivity].
    cbn [rbind]. destruct (_ || _)%bool; [reflexivity|].
    rewrite (Hm (params w) (VTensor pl) (VTensor pr1) (VTensor pr2)).
    rewrite (Hm (params w) (VTensor nl) (VTensor nr1) (VTensor nr2)).
    reflexivity.
Qed.

Lemma forward_forward_right_half_through_model_witness :
  (exists rest,
      trace (snd (forward_forward Demo.echo Demo.left0 Demo.right0 [1; 0]%Z Demo.w0))
      = trace Demo.w0
        ++ EvCall [@VTensor Demo.runtime (mkTensor [1; 1; 1; 1]%nat [1%Q] false);
                   @VTensor Demo.runtime (mkTensor [1; 1; 1; 1]%nat [2%Q] false)] :: rest /\
      (forall out,
          call Demo.echo (params Demo.w0)
            [@VTensor Demo.runtime (mkTensor [1; 1; 1; 1]%nat [1%Q] false);
             @VTensor Demo.runtime (mkTensor [1; 1; 1; 1]%nat [2%Q] false)] = Ok out ->
          hd_error rest
          = Some (EvCall [@VTensor Demo.runtime (mkTensor [1; 1; 1; 1]%nat [3%Q] false);
                          @VTensor Demo.runtime (mkTensor [1; 1; 1; 1]%nat [4%Q] false)]))) /\
  fst (forward_forward Demo.echo Demo.left0 Demo.right0 [1; 0]%Z Demo.w0) =
  fst (forward_forward Demo.echo Demo.left0 Demo.right1 [1; 0]%Z Demo.w0).
Proof.
  destruct (forward_forward_right_half_through_model Demo.runtime Demo.echo
              Demo.left0 Demo.right0 Demo.right1 [1; 0]%Z Demo.w0) as [Hcall Hsame].
  split.
  - apply Hcall; reflexivity.
  - apply Hsame.
    + intros p a b1 b2. destruct a; reflexivity.
    + reflexivity.
Defined.

(** C7.  Whenever [forward_forward] returns a loss, it returns the same
    loss on the labelling with the roles of 1 and 0 exchanged; where the
    scoring step is reached this is the symmetry of the squared
    difference. *)
Theorem forward_forward_swap_labels :
  forall (RT : Runtime) (model : PyModel) (X_left X_right : Tensor elt)
         (y : list Z) (w : World) (v : Tensor elt),
    fst (forward_forward model X_left X_right y w) = Ok v ->
    fst (forward_forward model X_left X_right (swap_labels y) w) = Ok v.
Proof.
  intros RT model Xl Xr y w v. unfold forward_forward.
  rewrite swap_labels_pos, swap_labels_neg.
  unfold mbind, lift, mret; simpl.
  destruct (mask_index Xl (labels_eq y 1)) as [pl|]; [|discriminate].
  destruct (mask_index Xl (labels_eq y 0)) as [nl|]; [|discriminate].
  destruct (mask_index Xr (labels_eq y 1)) as [pr|]; [|discriminate].
  destruct (mask_index Xr (labels_eq y 0)) as [nr|]; [|discriminate].
  rewrite (orb_comm (nelement nl =? 0)%nat).
  destruct (_ || _)%bool; [trivial|].
  unfold call_model, emit, mbind; simpl.
  destruct (call model (params w) [VTensor pl; VTensor pr]) as [op|]; [|discriminate].
  destruct (call model (params w) [VTensor nl; VTensor nr]) as [on|]; [|discriminate].
  simpl.
  destruct (tsub op on) as [d|] eqn:Ed; [|discriminate].
  destruct (tsub_swap op on d Ed) as [d' [-> Hd]].
  simpl. intros [= <-]. now rewrite Hd.
Qed.

Lemma forward_forward_swap_labels_witness :
  fst (forward_forward Demo.echo Demo.left0 Demo.right0 (swap_labels [1; 0]%Z) Demo.w0)
  = Ok (mkTensor [] [Qdiv (Qplus 0 (Qmult (Qminus 1 3) (Qminus 1 3))) (inject_Z 1)] true).
Proof.
  apply (forward_forward_swap_labels Demo.runtime Demo.echo Demo.left0 Demo.right0
           [1; 0]%Z Demo.w0).
  reflexivity.
Defined.

(* ------------------------------------------------------------------ *)
(** ** Sampling *)

Section SampleFacts.

Context {RT : Runtime}.

Lemma range_len_down (n : nat) : range_len (Z.of_nat n - 1) (-1) (-1) = n.
Proof.
  unfold range_len; simpl.
  replace (Z.of_nat n - 1 - -1 - -1 - 1)%Z with (Z.of_nat n) by lia.
  rewrite Z.div_1_r. apply Nat2Z.id.
Qed.

(** [range(n - 1, -1, -1)] starts at [n - 1] and goes on as
    [range(n - 2, -1, -1)]. *)
Lemma range3_down_succ (n : nat) :
  range3 (Z.of_nat (S n) - 1) (-1) (-1) =
  Z.of_nat n :: range3 (Z.of_nat n - 1) (-1) (-1).
Proof.
  unfold range3. rewrite !range_len_down.
  rewrite <- cons_seq, <- seq_shift, map_cons, map_map.
  f_equal; [lia|]. apply map_ext. intros k. lia.
Qed.

Lemma range3_down_neg (T : Z) : (T <= 0)%Z -> range3 (T - 1) (-1) (-1) = [].
Proof.
  intros HT. unfold range3, range_len; simpl.
  replace (T - 1 - -1 - -1 - 1)%Z with T by lia.
  rewrite Z.div_1_r. replace (Z.to_nat T) with 0%nat by lia. reflexivity.
Qed.

Lemma range3_down_list (n : nat) :
  range3 (Z.of_nat n - 1) (-1) (-1) = map Z.of_nat (rev (seq 0 n)).
Proof.
  induction n as [|n IH]; [reflexivity|].
  rewrite range3_down_succ, IH, seq_S, rev_app_distr. reflexivity.
Qed.

Lemma mbind_ext {A B} (c : M A) (k1 k2 : A -> M B) (w : World) :
  (forall a w', k1 a w' = k2 a w') -> mbind c k1 w = mbind c k2 w.
Proof.
  intros H. unfold mbind. destruct (c w) as [[a|e] w']; [apply H | reflexivity].
Qed.

(** The loop of [sample] is the descending iteration of the contract. *)
Lemma sample_loop (model : PyModel) (sched : Tensor elt) (n : nat) :
  forall (x : Tensor elt) (w : World),
    mfor (range3 (Z.of_nat n - 1) (-1) (-1))
      (fun i noise =>
         mbind (call_model model [VTensor noise; VNum (PyInt i)]) (fun out =>
         mbind (lift (select sched i)) (fun s_i => lift (tmul out s_i))))
      x w
    = denoise_from model sched n x w.
Proof.
  induction n as [|n IH]; intros x w; [reflexivity|].
  rewrite range3_down_succ. simpl. unfold denoise_step.
  apply mbind_ext. intros a w'. apply IH.
Qed.

Lemma generator_free_lift {A} (r : result A) : generator_free (lift r).
Proof. intros w1 w2 _. repeat split. Qed.

Lemma generator_free_mret {A} (a : A) : generator_free (mret a).
Proof. intros w1 w2 _. repeat split. Qed.

Lemma generator_free_bind {A B} (c : M A) (k : A -> M B) :
  generator_free c -> (forall a, generator_free (k a)) ->
  generator_free (mbind c k).
Proof.
  intros Hc Hk w1 w2 Hp.
  destruct (Hc w1 w2 Hp) as (Hr & Hp1 & Hg1).
  destruct (Hc w2 w1 (eq_sym Hp)) as (_ & Hp2 & _).
  unfold mbind.
  destruct (c w1) as [r1 v1], (c w2) as [r2 v2]; simpl in *. subst r2.
  destruct r1 as [a|e]; simpl; [|auto].
  destruct (Hk a v1 v2 ltac:(congruence)) as (Hr' & Hp' & Hg').
  repeat split; congruence.
Qed.

Lemma generator_free_call (model : PyModel) (args : list value) :
  generator_free (call_model model args).
Proof.
  intros w1 w2 Hp. unfold call_model, mbind, emit; simpl.
  rewrite Hp. repeat split.
Qed.

Lemma generator_free_mfor {A S} (body : A -> S -> M S) (l : list A) :
  (forall a s, generator_free (body a s)) ->
  forall s, generator_free (mfor l body s).
Proof.
  intros Hb. induction l as [|a l IH]; intros s; simpl.
  - apply generator_free_mret.
  - apply generator_free_bind; [apply Hb | apply IH].
Qed.

Lemma generator_free_sample (model : PyModel) (noise : Tensor elt) (steps : Z) :
  generator_free (sample model noise steps).
Proof.
  unfold sample.
  repeat (apply generator_free_bind; [apply generator_free_lift | intros ?]).
  apply generator_free_mfor. intros i x.
  apply generator_free_bind; [apply generator_free_call | intros out].
  apply generator_free_bind; [apply generator_free_lift | intros s_i].
  apply generator_free_lift.
Qed.

End SampleFacts.

(** What the loop of [sample] aims at.  On a model object that carries
    the two schedule attributes, which no instance of the script's
    network does, [sample] is the descending iteration of the contract:
    starting from [t = T - 1] it replaces the running tensor by
    [model(x, t) * sqrt_alphas_cumprod[t]] down to [t = 0] and returns
    what is left; exceptions of a step end the run in both. *)
Lemma sample_is_descending_iteration :
  forall (RT : Runtime) (model : PyModel) (noise : Tensor elt) (T : Z)
         (alphas : value) (sched : Tensor elt) (w : World),
    (1 <= T)%Z ->
    getattr model "alphas_cumprod" = Ok alphas ->
    getattr model "sqrt_alphas_cumprod" = Ok (VTensor sched) ->
    sample model noise T w = denoise_from model sched (Z.to_nat T) noise w.
Proof.
  intros RT model noise T alphas sched w HT Ha Hs.
  unfold sample. rewrite Ha, Hs. unfold mbind at 1 2 3. simpl.
  replace T with (Z.of_nat (Z.to_nat T)) at 1 by lia.
  apply sample_loop.
Qed.

Lemma sample_is_descending_iteration_witness :
  sample Demo.echo Demo.left0 2 Demo.w0
  = denoise_from Demo.echo Demo.sched_s 2 Demo.left0 Demo.w0.
Proof.
  apply (sample_is_descending_iteration Demo.runtime Demo.echo Demo.left0 2%Z
           (VTensor Demo.sched_a) Demo.sched_s Demo.w0).
  - lia.
  - reflexivity.
  - reflexivity.
Defined.

(** C6.  Two runs of [sample] on the same model, parameters, seed tensor
    and step count end the same way, with the same tensor when they
    return one, whatever state the random generator is in; and a run
    leaves the generator where it found it. *)
Theorem sample_deterministic :
  forall (RT : Runtime) (model : PyModel) (noise : Tensor elt) (steps : Z)
         (w1 w2 : World),
    params w1 = params w2 ->
    fst (sample model noise steps w1) = fst (sample model noise steps w2) /\
    rng (snd (sample model noise steps w1)) = rng w1.
Proof.
  intros RT model noise steps w1 w2 Hp.
  destruct (generator_free_sample model noise steps w1 w2 Hp) as (H1 & _ & H2).
  now split.
Qed.

Lemma sample_deterministic_witness :
  fst (sample Demo.echo Demo.left0 2 Demo.w0) = fst (sample Demo.echo Demo.left0 2 Demo.w1) /\
  rng (snd (sample Demo.echo Demo.left0 2 Demo.w0)) = rng Demo.w0.
Proof.
  apply (sample_deterministic Demo.runtime Demo.echo Demo.left0 2%Z Demo.w0 Demo.w1).
  reflexivity.
Defined.

(* ------------------------------------------------------------------ *)
(** ** The training loop and the script *)

Section TrainingFacts.

Context {RT : Runtime}.

(** Indexing a one-dimensional schedule at a step it covers gives a
    0-dimensional tensor. *)
Lemma select_schedule (sched : Tensor elt) (n : nat) (t : Z) :
  shape sched = [n] -> (0 <= t < Z.of_nat n)%Z ->
  exists s_t, select sched t = Ok s_t /\ shape s_t = [].
Proof.
  intros Hs [Ht0 Htn]. unfold select. rewrite Hs.
  destruct ((- Z.of_nat n <=? t) && (t <? Z.of_nat n))%Z eqn:E.
  - eexists. split; reflexivity.
  - apply andb_false_iff in E as [E|E]; [apply Z.leb_gt in E | apply Z.ltb_ge in E]; lia.
Qed.

(** The update after a loss that is not attached to the graph stops in
    [backward]; the optimiser does not get to move the parameters. *)
Lemma update_detached (loss : Tensor elt) (w : World) :
  requires_grad loss = false ->
  fst (update loss w) = Raise RuntimeError /\ params (snd (update loss w)) = params w.
Proof.
  intros H. unfold update, mbind, zero_grad, backward. simpl. rewrite H. simpl.
  split; reflexivity.
Qed.

(** Nothing after a failed construction is run. *)
Lemma UNet_new_no_args {A} (k : PyModel -> M A) (w : World) :
  mbind (UNet_new []) k w = (Raise TypeError, w).
Proof. reflexivity. Qed.

(** The outcome of a sequence is the outcome of its first part followed
    by that of the rest. *)
Lemma fst_mbind {A B} (c : M A) (k : A -> M B) (w : World) :
  fst (mbind c k w) = rbind (fst (c w)) (fun a => fst (k a (snd (c w)))).
Proof. unfold mbind. destruct (c w) as [[a|e] w']; reflexivity. Qed.

Lemma fst_built (r : result Layer) (w : World) : fst (built r w) = r.
Proof. unfold built, mbind, lift. destruct r; reflexivity. Qed.

Lemma fst_mcollect {A B} (f : A -> M B) (g : A -> result B) (l : list A) :
  (forall x w, fst (f x w) = g x) ->
  forall w, fst (mcollect l f w) = for_collect l g.
Proof.
  intros Hf. induction l as [|a l IH]; intros w; [reflexivity|].
  cbn [mcollect for_collect]. rewrite fst_mbind, Hf.
  destruct (g a) as [y|e]; [|reflexivity]. cbn [rbind].
  rewrite fst_mbind, IH.
  destruct (for_collect l g); reflexivity.
Qed.

Lemma fst_build_down_block (i o : num) (k : Z) (w : World) :
  fst (build_down_block i o k w) = down_block i o k.
Proof.
  unfold build_down_block, down_block.
  rewrite fst_mbind, fst_built.
  destruct (nn_Conv2d (down_in_ch i o k) (down_out_ch o k) 3 1); [|reflexivity].
  cbn [rbind]. rewrite fst_mbind, fst_built.
  destruct (nn_Conv2d (down_out_ch o k) (down_out_ch o k) 3 1); reflexivity.
Qed.

Lemma fst_build_bottleneck (o : num) (n : Z) (w : World) :
  fst (build_bottleneck o n w) = bottleneck_block o n.
Proof.
  unfold build_bottleneck, bottleneck_block.
  rewrite fst_mbind, fst_built.
  destruct (nn_Conv2d (mul (pow 2 (n - 1)) o) o 3 1); [|reflexivity].
  cbn [rbind]. rewrite fst_mbind, fst_built.
  destruct (nn_Conv2d o o 3 1); reflexivity.
Qed.

Lemma fst_build_up_block (o : num) (n k : Z) (w : World) :
  fst (build_up_block o n k w) = up_block o n k.
Proof.
  unfold build_up_block, up_block.
  rewrite fst_mbind, fst_built.
  destruct (nn_ConvTranspose2d (up_in_ch o n k) (up_out_ch o k) 2 2); [|reflexivity].
  cbn [rbind]. rewrite fst_mbind, fst_built.
  destruct (nn_Conv2d (up_out_ch o k) (up_out_ch o k) 3 1); [|reflexivity].
  cbn [rbind]. rewrite fst_mbind, fst_built.
  destruct (nn_Conv2d (up_out_ch o k) (up_out_ch o k) 3 1); reflexivity.
Qed.

(** The constructor as it runs ends the way [UNet_init] says. *)
Lemma fst_build_UNet (i o : num) (n : Z) (w : World) :
  fst (build_UNet i o n w) = UNet_init i o n.
Proof.
  unfold build_UNet, UNet_init.
  rewrite fst_mbind, (fst_mcollect _ (down_block i o)) by apply fst_build_down_block.
  destruct (for_collect (range n) (down_block i o)); [|reflexivity].
  cbn [rbind]. rewrite fst_mbind, fst_build_bottleneck.
  destruct (bottleneck_block o n); [|reflexivity].
  cbn [rbind].
  rewrite fst_mbind, (fst_mcollect _ (up_block o n)) by apply fst_build_up_block.
  destruct (for_collect (reversed (range n)) (up_block o n)); [|reflexivity].
  cbn [rbind]. rewrite fst_mbind, fst_built.
  destruct (nn_Conv2d o o 3 1); reflexivity.
Qed.

Lemma UNet_new_raises (args : list value) (w : World) :
  exists e, fst (UNet_new args w) = Raise e.
Proof.
  unfold UNet_new. rewrite fst_mbind. unfold lift at 1. cbn [fst snd].
  destruct (bind_args UNet_init_sig args) as [xs|e];
    [|eexists; reflexivity].
  cbn [rbind].
  destruct xs as [|[i| |] [|[o| |] [|[[n|]| |] [|]]]];
    try (eexists; reflexivity).
  cbv beta. rewrite fst_mbind, fst_build_UNet.
  destruct (UNet_init_raises i o n) as [e ->]. exists e. reflexivity.
Qed.

End TrainingFacts.

(** What lines 119 to 121 aim at.  On a model object whose two schedules
    are one-dimensional tensors of length [n], which no instance of the
    script's network carries, and for a noise step [t] below [n], the
    tensor handed to the model is [images * alphas_cumprod[t] +
    randn_like(images) * sqrt_alphas_cumprod[t]], the normal draw having
    the shape of the image batch. *)
Lemma noisy_images_fed_to_model :
  forall (RT : Runtime) (model : PyModel) (images sqs als : Tensor elt)
         (n : nat) (t : Z) (w : World),
    getattr model "sqrt_alphas_cumprod" = Ok (VTensor sqs) ->
    getattr model "alphas_cumprod" = Ok (VTensor als) ->
    shape sqs = [n] -> shape als = [n] ->
    (0 <= t < Z.of_nat n)%Z ->
    exists s_t a_t z noise scaled noisy_images,
      select sqs t = Ok s_t /\ select als t = Ok a_t /\
      fst (torch_randn_like images w) = Ok z /\ shape z = shape images /\
      tmul z s_t = Ok noise /\
      tmul images a_t = Ok scaled /\
      tadd scaled noise = Ok noisy_images /\
      trace (snd (noisy_forward model images t w))
      = trace w ++ [EvCall [VTensor noisy_images; VNum (PyInt t)]].
Proof.
  intros RT model images sqs als n t w Hsq Hal Hss Has Ht.
  destruct (select_schedule sqs n t Hss Ht) as [s_t [Hst Hs0]].
  destruct (select_schedule als n t Has Ht) as [a_t [Hat Ha0]].
  set (z := mkTensor (shape images) (fst (draw (prod_dims (shape images)) (rng w))) false).
  destruct (bmap2_scalar_r fmul z s_t Hs0) as [noise [Hn Hns]].
  destruct (bmap2_scalar_r fmul images a_t Ha0) as [scaled [Hsc Hscs]].
  destruct (bmap2_same_shape fadd scaled noise) as [noisy [Hno Hnos]].
  { now rewrite Hscs, Hns. }
  exists s_t, a_t, z, noise, scaled, noisy.
  repeat split; try assumption.
  unfold noisy_forward, make_noisy, mbind, lift, torch_randn_like, torch_randn, mret.
  simpl. rewrite Hsq. simpl. rewrite Hst. fold z. unfold tmul, tadd in *.
  rewrite Hn, Hal. simpl. rewrite Hat, Hsc, Hno.
  unfold call_model, mbind, emit. simpl.
  destruct (call model (params w) _); reflexivity.
Qed.

Lemma noisy_images_fed_to_model_witness :
  exists s_t a_t z noise scaled noisy_images : Tensor (@elt Demo.runtime),
    select Demo.sched_s 1 = Ok s_t /\ select Demo.sched_a 1 = Ok a_t /\
    fst (torch_randn_like Demo.images0 Demo.w0) = Ok z /\
    shape z = shape Demo.images0 /\
    tmul z s_t = Ok noise /\
    tmul Demo.images0 a_t = Ok scaled /\
    tadd scaled noise = Ok noisy_images /\
    trace (snd (noisy_forward Demo.echo Demo.images0 1 Demo.w0))
    = trace Demo.w0 ++ [EvCall [VTensor noisy_images; VNum (PyInt 1)]].
Proof.
  apply (noisy_images_fed_to_model Demo.runtime Demo.echo Demo.images0
           Demo.sched_s Demo.sched_a 2%nat 1%Z Demo.w0); try reflexivity.
  lia.
Defined.

(** C9.  On a batch whose labels contain no 1 or no 0, the loss the
    contrastive half of a training step computes is the constant, which
    is not attached to the graph, and the parameters after the update on
    it are the parameters before.  The update gets no further than
    [backward], which raises a [RuntimeError] on such a loss, so the
    optimiser step is not reached. *)
Theorem empty_partition_update_keeps_params :
  forall (RT : Runtime) (model : PyModel) (X_left X_right : Tensor elt)
         (y : list Z) (w : World),
    batch_dim X_left = Some (List.length y) ->
    batch_dim X_right = Some (List.length y) ->
    ~ In 1%Z y \/ ~ In 0%Z y ->
    fst (forward_forward model X_left X_right y w) = Ok (torch_tensor fzero) /\
    requires_grad (torch_tensor (fzero (F := elt))) = false /\
    params (snd (contrastive_update model X_left X_right y w)) = params w /\
    fst (contrastive_update model X_left X_right y w) = Raise RuntimeError.
Proof.
  intros RT model Xl Xr y w Hl Hr Hy.
  rewrite (forward_forward_empty model Xl Xr y w Hl Hr Hy).
  split; [reflexivity|]. split; [reflexivity|].
  unfold contrastive_update, mbind.
  rewrite (forward_forward_empty model Xl Xr y w Hl Hr Hy).
  destruct (update_detached (torch_tensor fzero) w eq_refl) as [H1 H2].
  destruct (update (torch_tensor fzero) w) as [[[]|e] w']; simpl in *;
    [discriminate | split; congruence].
Qed.

Lemma empty_partition_update_keeps_params_witness :
  fst (forward_forward Demo.echo Demo.left0 Demo.right0 [1; 1]%Z Demo.w0)
  = Ok (torch_tensor 0%Q) /\
  requires_grad (torch_tensor 0%Q) = false /\
  params (snd (contrastive_update Demo.echo Demo.left0 Demo.right0 [1; 1]%Z Demo.w0))
  = params Demo.w0 /\
  fst (contrastive_update Demo.echo Demo.left0 Demo.right0 [1; 1]%Z Demo.w0)
  = Raise RuntimeError.
Proof.
  apply (empty_partition_update_keeps_params Demo.runtime Demo.echo Demo.left0 Demo.right0
           [1; 1]%Z Demo.w0).
  - reflexivity.
  - reflexivity.
  - right. simpl. intros [H|[H|[]]]; discriminate.
Defined.

(** C10.  [UNet.__init__] has the two required parameters [in_channels]
    and [out_channels]; binding the empty argument list of [UNet()] to it
    is a [TypeError]; whatever follows the construction is not run, and
    the script ends with that error in the state it started in: no model
    call, no draw from the generator, no update, no output. *)
Theorem script_stops_at_construction :
  forall (RT : Runtime) (w : World),
    required UNet_init_sig = ["in_channels"; "out_channels"]%string /\
    bind_args UNet_init_sig (@nil value) = Raise TypeError /\
    (forall (A : Type) (k : PyModel -> M A), mbind (UNet_new []) k w = (Raise TypeError, w)) /\
    script w = (Raise TypeError, w).
Proof.
  intros RT w. repeat split.
Qed.

(** C2.  No argument list gets a network out of the constructor, so on
    no input does building the network and running its forward pass
    return an output tensor: the run ends with an exception of the
    constructor. *)
Theorem build_and_run_never_returns :
  forall (RT : Runtime) (args : list value) (x : Tensor elt) (w : World),
    exists e, fst (build_and_run args x w) = Raise e.
Proof.
  intros RT args x w. unfold build_and_run. rewrite fst_mbind.
  destruct (UNet_new_raises args w) as [e ->]. exists e. reflexivity.
Qed.

(* ------------------------------------------------------------------ *)
(** ** Further properties of the contrastive loss *)

Section MoreLossFacts.

Context {RT : Runtime}.

Lemma true_positions_present (y : list Z) (c : Z) :
  In c y -> forall i, true_positions (labels_eq y c) i <> [].
Proof.
  induction y as [|l y IH]; intros Hc i; [destruct Hc|].
  simpl. destruct (Z.eqb_spec c l) as [->|Hn]; [discriminate|].
  destruct Hc as [->|Hc]; [congruence | now apply IH].
Qed.

Lemma mask_index_shape (X t : Tensor elt) (mask : list bool) :
  mask_index X mask = Ok t ->
  shape t = List.length (true_positions mask 0) :: tl (shape X) /\
  requires_grad t = requires_grad X.
Proof.
  rewrite mask_index_cases. destruct (mask_ok X mask); [|discriminate].
  intros [= <-]. split; reflexivity.
Qed.

(** Reversed shapes with a common trailing part and leading extents
    that neither agree nor are 1 do not broadcast. *)
Lemma bshape_rev_mismatch (l : Shape) (n m : nat) :
  n <> m -> n <> 1%nat -> m <> 1%nat -> bshape_rev (l ++ [n]) (l ++ [m]) = None.
Proof.
  intros Hnm Hn Hm. induction l as [|x l IH]; simpl.
  - destruct (Nat.eqb_spec n m); [congruence|].
    destruct (Nat.eqb_spec n 1); [congruence|].
    destruct (Nat.eqb_spec m 1); [congruence|reflexivity].
  - rewrite Nat.eqb_refl, IH. reflexivity.
Qed.

Lemma bshape_batch_mismatch (r : Shape) (n m : nat) :
  n <> m -> n <> 1%nat -> m <> 1%nat -> bshape (n :: r) (m :: r) = None.
Proof.
  intros Hnm Hn Hm. unfold bshape. simpl.
  now rewrite bshape_rev_mismatch.
Qed.

End MoreLossFacts.

(** X1.  A [UNet] instance takes exactly one positional argument: a call
    with any other number of arguments raises a [TypeError] before a
    layer runs, and the attempt is all the call leaves in the state.  The
    script's calls all pass two. *)
Theorem UNet_call_arity :
  forall (RT : Runtime) (net : UNet) (args : list value) (w : World),
    List.length args <> 1%nat ->
    call_model (UNet_obj net) args w
    = (Raise TypeError,
       mkWorld (rng w) (params w) (grads w) (opt w) (trace w ++ [EvCall args])).
Proof.
  intros RT net args w Hlen.
  unfold call_model, mbind, emit; simpl. unfold UNet_call, bind_args; simpl.
  destruct args as [|a [|b args]]; simpl;
    [reflexivity | exfalso; apply Hlen; reflexivity | reflexivity].
Qed.

Lemma UNet_call_arity_witness :
  call_model (UNet_obj Demo.net1) [VTensor Demo.left0; VNum (PyInt 3)] Demo.w0
  = (Raise TypeError,
     mkWorld (rng Demo.w0) (params Demo.w0) (grads Demo.w0) (opt Demo.w0)
       (trace Demo.w0 ++ [EvCall [VTensor Demo.left0; VNum (PyInt 3)]])).
Proof.
  apply (UNet_call_arity Demo.runtime Demo.net1
           [VTensor Demo.left0; VNum (PyInt 3)] Demo.w0).
  simpl. discriminate.
Defined.

(** X2.  On a batch of non-empty images that has both a label 1 and a
    label 0, [forward_forward] on a [UNet] instance raises a [TypeError]:
    the scoring step calls the network with two arguments. *)
Theorem forward_forward_UNet_scoring_raises :
  forall (RT : Runtime) (net : UNet) (X_left X_right : Tensor elt)
         (y : list Z) (w : World),
    batch_dim X_left = Some (List.length y) ->
    batch_dim X_right = Some (List.length y) ->
    In 1%Z y -> In 0%Z y ->
    prod_dims (tl (shape X_left)) <> 0%nat ->
    fst (forward_forward (UNet_obj net) X_left X_right y w) = Raise TypeError.
Proof.
  intros RT net Xl Xr y w Hl Hr H1 H0 Hne.
  rewrite forward_forward_UNet.
  rewrite !mask_ok_batch by (now rewrite labels_eq_length). simpl.
  pose proof (true_positions_present y 1%Z H1 0%nat) as P1.
  pose proof (true_positions_present y 0%Z H0 0%nat) as P0.
  destruct (true_positions (labels_eq y 1) 0) as [|a1 l1]; [congruence|].
  destruct (true_positions (labels_eq y 0) 0) as [|a0 l0]; [congruence|].
  assert (E : forall l : list nat,
             ((S (List.length l) * prod_dims (tl (shape Xl)) =? 0) = false)%nat).
  { intros l. apply Nat.eqb_neq. simpl. lia. }
  simpl List.length. now rewrite !E.
Qed.

Lemma forward_forward_UNet_scoring_raises_witness :
  fst (forward_forward (UNet_obj Demo.net1) Demo.left0 Demo.right0 [1; 0]%Z Demo.w0)
  = Raise TypeError.
Proof.
  apply (forward_forward_UNet_scoring_raises Demo.runtime Demo.net1
           Demo.left0 Demo.right0 [1; 0]%Z Demo.w0).
  - reflexivity.
  - reflexivity.
  - simpl. now left.
  - simpl. right. now left.
  - simpl. discriminate.
Defined.

(** X3.  Whatever the model, a loss that [forward_forward] returns is a
    0-dimensional tensor of one element. *)
Theorem forward_forward_loss_is_scalar :
  forall (RT : Runtime) (model : PyModel) (X_left X_right : Tensor elt)
         (y : list Z) (w : World) (v : Tensor elt),
    fst (forward_forward model X_left X_right y w) = Ok v ->
    shape v = [] /\ List.length (data v) = 1%nat.
Proof.
  intros RT model Xl Xr y w v. unfold forward_forward, mbind, lift, mret; simpl.
  destruct (mask_index Xl (labels_eq y 1)) as [pl|]; [|discriminate].
  destruct (mask_index Xl (labels_eq y 0)) as [nl|]; [|discriminate].
  destruct (mask_index Xr (labels_eq y 1)) as [pr|]; [|discriminate].
  destruct (mask_index Xr (labels_eq y 0)) as [nr|]; [|discriminate].
  destruct (_ || _)%bool; simpl.
  - intros [= <-]. split; reflexivity.
  - unfold call_model, mbind, emit; simpl.
    destruct (call model (params w) [VTensor pl; VTensor pr]); [|discriminate].
    destruct (call model (params w) [VTensor nl; VTensor nr]); [|discriminate].
    simpl. destruct (tsub _ _); [|discriminate].
    simpl. intros [= <-]. split; reflexivity.
Qed.

Lemma forward_forward_loss_is_scalar_witness :
  shape (mkTensor [] [Qdiv (Qplus 0 (Qmult (Qminus 1 3) (Qminus 1 3))) (inject_Z 1)] true)
  = [] /\
  List.length
    (data (mkTensor [] [Qdiv (Qplus 0 (Qmult (Qminus 1 3) (Qminus 1 3))) (inject_Z 1)] true))
  = 1%nat.
Proof.
  apply (forward_forward_loss_is_scalar Demo.runtime Demo.echo Demo.left0 Demo.right0
           [1; 0]%Z Demo.w0).
  reflexivity.
Defined.

(** X4.  [forward_forward] changes neither the generator, nor the
    parameters, nor the gradients, nor the optimiser state, whether it
    returns or raises; it calls the model at most twice. *)
Theorem forward_forward_frame :
  forall (RT : Runtime) (model : PyModel) (X_left X_right : Tensor elt)
         (y : list Z) (w : World),
    let w' := snd (forward_forward model X_left X_right y w) in
    rng w' = rng w /\ params w' = params w /\ grads w' = grads w /\ opt w' = opt w /\
    exists evs, trace w' = trace w ++ evs /\ (List.length evs <= 2)%nat.
Proof.
  intros RT model Xl Xr y w. unfold forward_forward, mbind, lift, mret; simpl.
  assert (Hnil : rng w = rng w /\ params w = params w /\ grads w = grads w /\
                 opt w = opt w /\
                 exists evs, trace w = trace w ++ evs /\ (List.length evs <= 2)%nat).
  { repeat split. exists []. rewrite app_nil_r. split; [reflexivity | simpl; lia]. }
  destruct (mask_index Xl (labels_eq y 1)) as [pl|]; [|exact Hnil].
  destruct (mask_index Xl (labels_eq y 0)) as [nl|]; [|exact Hnil].
  destruct (mask_index Xr (labels_eq y 1)) as [pr|]; [|exact Hnil].
  destruct (mask_index Xr (labels_eq y 0)) as [nr|]; [|exact Hnil].
  destruct (_ || _)%bool; simpl; [exact Hnil|].
  unfold call_model, mbind, emit; simpl.
  destruct (call model (params w) [VTensor pl; VTensor pr]); simpl.
  - destruct (call model (params w) [VTensor nl; VTensor nr]); simpl.
    + destruct (tsub _ _); simpl; repeat split;
        (eexists; split; [rewrite <- app_assoc; reflexivity | simpl; lia]).
    + repeat split. eexists. split; [rewrite <- app_assoc; reflexivity | simpl; lia].
  - repeat split. eexists. split; [reflexivity | simpl; lia].
Qed.

(** X5.  When the two partitions come back from the model with leading
    extents that differ, neither of them 1, and the same trailing shape,
    the difference of line 107 does not broadcast and [forward_forward]
    raises a [RuntimeError]. *)
Theorem forward_forward_unequal_partitions :
  forall (RT : Runtime) (model : PyModel) (X_left X_right : Tensor elt)
         (y : list Z) (w : World)
         (pl nl pr nr out_pos out_neg : Tensor elt) (n m : nat) (r : Shape),
    mask_index X_left (labels_eq y 1) = Ok pl ->
    mask_index X_left (labels_eq y 0) = Ok nl ->
    mask_index X_right (labels_eq y 1) = Ok pr ->
    mask_index X_right (labels_eq y 0) = Ok nr ->
    nelement pl <> 0%nat -> nelement nl <> 0%nat ->
    call model (params w) [VTensor pl; VTensor pr] = Ok out_pos ->
    call model (params w) [VTensor nl; VTensor nr] = Ok out_neg ->
    shape out_pos = n :: r -> shape out_neg = m :: r ->
    n <> m -> n <> 1%nat -> m <> 1%nat ->
    fst (forward_forward model X_left X_right y w) = Raise RuntimeError.
Proof.
  intros RT model Xl Xr y w pl nl pr nr op on n m r
         Hpl Hnl Hpr Hnr Ep En Cp Cn Sp Sn Hnm Hn Hm.
  unfold forward_forward, mbind, lift, mret; simpl.
  rewrite Hpl, Hnl, Hpr, Hnr.
  apply Nat.eqb_neq in Ep, En. rewrite Ep, En. simpl.
  unfold call_model, mbind, emit; simpl. rewrite Cp, Cn. simpl.
  unfold tsub, bmap2. rewrite Sp, Sn, bshape_batch_mismatch by assumption.
  reflexivity.
Qed.

Lemma forward_forward_unequal_partitions_witness :
  fst (forward_forward Demo.echo Demo.left5 Demo.right5 [1; 1; 0; 0; 0]%Z Demo.w0)
  = Raise RuntimeError.
Proof.
  apply (forward_forward_unequal_partitions Demo.runtime Demo.echo
           Demo.left5 Demo.right5 [1; 1; 0; 0; 0]%Z Demo.w0
           (mkTensor [2; 1; 1; 1]%nat [1; 2]%Q false)
           (mkTensor [3; 1; 1; 1]%nat [3; 4; 5]%Q false)
           (mkTensor [2; 1; 1; 1]%nat [6; 7]%Q false)
           (mkTensor [3; 1; 1; 1]%nat [8; 9; 10]%Q false)
           (mkTensor [2; 1; 1; 1]%nat [1; 2]%Q true)
           (mkTensor [3; 1; 1; 1]%nat [3; 4; 5]%Q true)
           2%nat 3%nat [1; 1; 1]%nat);
    try reflexivity; simpl; discriminate.
Defined.

(* ------------------------------------------------------------------ *)
(** ** Further properties of the training loop and of sampling *)

Section MoreScriptFacts.

Context {RT : Runtime}.

Lemma mbind_ok {A B} (c : M A) (k : A -> M B) (w w' : World) (a : A) :
  c w = (Ok a, w') -> mbind c k w = k a w'.
Proof. intros H. unfold mbind. now rewrite H. Qed.

Lemma mbind_raise {A B} (c : M A) (k : A -> M B) (w w' : World) (e : exn) :
  c w = (Raise e, w') -> mbind c k w = (Raise e, w').
Proof. intros H. unfold mbind. now rewrite H. Qed.

(** For a positive count the descending range starts at the count less
    one. *)
Lemma range3_down_pos (T : Z) :
  (1 <= T)%Z ->
  range3 (T - 1) (-1) (-1) = (T - 1)%Z :: range3 (T - 1 - 1) (-1) (-1).
Proof.
  intros HT. pose (k := Z.to_nat (T - 1)).
  replace (T - 1)%Z with (Z.of_nat (S k) - 1)%Z at 1 by lia.
  rewrite range3_down_succ.
  f_equal; [lia|]. f_equal. lia.
Qed.

Lemma sample_body_ok (model : PyModel) (sched : Tensor elt) (i : Z)
      (x y : Tensor elt) (w w' : World) :
  sample_body model sched i x w = (Ok y, w') ->
  w' = mkWorld (rng w) (params w) (grads w) (opt w)
         (trace w ++ [EvCall [VTensor x; VNum (PyInt i)]]).
Proof.
  unfold sample_body, call_model, mbind, emit, lift; simpl.
  destruct (call model (params w) _); [|discriminate].
  destruct (select sched i); [|discriminate].
  destruct (tmul _ _); [|discriminate].
  now intros [= _ <-].
Qed.

Lemma sample_loop_trace (model : PyModel) (sched : Tensor elt) (l : list Z) :
  forall (x y : Tensor elt) (w w' : World),
    mfor l (sample_body model sched) x w = (Ok y, w') ->
    rng w' = rng w /\ params w' = params w /\ grads w' = grads w /\ opt w' = opt w /\
    exists evs, trace w' = trace w ++ evs /\ map step_of evs = map Some l.
Proof.
  induction l as [|i l IH]; intros x y w w'; simpl.
  - intros [= _ <-]. repeat split. exists []. now rewrite app_nil_r.
  - unfold mbind at 1.
    destruct (sample_body model sched i x w) as [[x1|e] w1] eqn:E; [|discriminate].
    apply sample_body_ok in E. intros H.
    destruct (IH _ _ _ _ H) as (Hg & Hp & Hgr & Ho & evs & Ht & Hs).
    subst w1; simpl in *. repeat split; try assumption.
    exists (EvCall [VTensor x; VNum (PyInt i)] :: evs). split.
    + rewrite Ht, <- app_assoc. reflexivity.
    + simpl. now rewrite Hs.
Qed.

(** A pass of the noise-level loop on a [UNet] instance stops at the
    first attribute it reads, with the normal draw behind it. *)
Lemma noise_level_UNet (net : UNet) (images X_left X_right : Tensor elt)
      (labels : list Z) (t : Z) (w : World) :
  noise_level (UNet_obj net) images X_left X_right labels t w
  = (Raise AttributeError,
     mkWorld (snd (draw (nelement images) (rng w))) (params w) (grads w) (opt w) (trace w)).
Proof. reflexivity. Qed.

Lemma train_batch_UNet (net : UNet) (steps epoch : Z) (n_batches batch_idx : nat)
      (images : Tensor elt) (labels : list Z) (w : World) (b c h : nat) (r : Shape) :
  (1 <= steps)%Z -> shape images = b :: c :: h :: r ->
  train_batch (UNet_obj net) steps epoch n_batches batch_idx images labels w
  = (Raise AttributeError,
     mkWorld (snd (draw (nelement images) (rng w))) (params w) (grads w) (opt w) (trace w)).
Proof.
  intros Hs Hsh. unfold train_batch, slice_dim2. rewrite Hsh.
  rewrite range3_down_pos by assumption.
  unfold mbind at 1. unfold lift at 1.
  unfold mbind at 1. unfold lift at 1.
  apply mbind_raise. simpl mfor. apply mbind_raise. apply mbind_raise.
  apply noise_level_UNet.
Qed.

End MoreScriptFacts.

(** X6.  The split of line 115 is along axis 2, the height: on a batch of
    shape [(B, C, H, ...)] the first half has height [min 14 H], the
    second the rest, both keep every other extent (so both keep the batch
    size of the labels), and together they have as many elements as the
    batch. *)
Theorem split_is_along_height :
  forall (F : Type) (images : Tensor F) (b c h : nat) (rest : Shape),
    shape images = b :: c :: h :: rest ->
    exists X_left X_right,
      slice_dim2 images 0 (Some 14%nat) = Ok X_left /\
      slice_dim2 images 14 None = Ok X_right /\
      shape X_left = b :: c :: Nat.min 14 h :: rest /\
      shape X_right = b :: c :: (h - Nat.min 14 h)%nat :: rest /\
      (nelement X_left + nelement X_right = nelement images)%nat.
Proof.
  intros F images b c h rest Hs. unfold slice_dim2. rewrite Hs.
  do 2 eexists. split; [reflexivity|]. split; [reflexivity|].
  unfold nelement. rewrite Hs. cbn [shape prod_dims fold_right].
  rewrite Nat.min_0_l, Nat.sub_0_r, Nat.max_0_l.
  replace (Nat.max (Nat.min 14 h) h) with h by lia.
  repeat split. set (m := Nat.min 14 h). set (p := fold_right Nat.mul 1%nat rest).
  assert (Hm : (m <= h)%nat) by (unfold m; lia).
  replace h with (m + (h - m))%nat at 3 by lia. nia.
Qed.

Lemma split_is_along_height_witness :
  exists X_left X_right,
    slice_dim2 Demo.mnist2 0 (Some 14%nat) = Ok X_left /\
    slice_dim2 Demo.mnist2 14 None = Ok X_right /\
    shape X_left = 2%nat :: 1%nat :: Nat.min 14 28 :: [28%nat] /\
    shape X_right = 2%nat :: 1%nat :: (28 - Nat.min 14 28)%nat :: [28%nat] /\
    (nelement X_left + nelement X_right = nelement Demo.mnist2)%nat.
Proof.
  apply (split_is_along_height Q Demo.mnist2 2%nat 1%nat 28%nat [28%nat]).
  reflexivity.
Defined.

(** X7.  With a step count of 0 or less, [sample] on a model that has
    the two schedule attributes returns the seed tensor as it is, without
    calling the model. *)
Theorem sample_without_steps :
  forall (RT : Runtime) (model : PyModel) (noise : Tensor elt) (steps : Z)
         (alphas : value) (sched : Tensor elt) (w : World),
    (steps <= 0)%Z ->
    getattr model "alphas_cumprod" = Ok alphas ->
    getattr model "sqrt_alphas_cumprod" = Ok (VTensor sched) ->
    sample model noise steps w = (Ok noise, w).
Proof.
  intros RT model noise steps alphas sched w Hs Ha Hq.
  unfold sample. rewrite Ha, Hq. unfold mbind at 1 2 3. simpl.
  now rewrite range3_down_neg.
Qed.

Lemma sample_without_steps_witness :
  sample Demo.echo Demo.left0 0 Demo.w0 = (Ok Demo.left0, Demo.w0).
Proof.
  apply (sample_without_steps Demo.runtime Demo.echo Demo.left0 0%Z
           (VTensor Demo.sched_a) Demo.sched_s Demo.w0).
  - lia.
  - reflexivity.
  - reflexivity.
Defined.

(** C4.  On an instance of the script's network [sample] does not
    iterate.  The class sets neither [alphas_cumprod] nor
    [sqrt_alphas_cumprod], so for every seed tensor and every step count
    the first statement of [sample] raises an [AttributeError]: the
    state is as it was, the model has not been called once and no tensor
    is returned.  The call [model(noise, i)] of the loop body would not
    go through either: it has two arguments for the one parameter of
    [forward], a [TypeError] on every parameter store. *)
Theorem sample_raises_on_UNet :
  forall (RT : Runtime) (net : UNet) (noise : Tensor elt) (steps : Z) (w : World),
    getattr (UNet_obj net) "alphas_cumprod" = Raise AttributeError /\
    getattr (UNet_obj net) "sqrt_alphas_cumprod" = Raise AttributeError /\
    sample (UNet_obj net) noise steps w = (Raise AttributeError, w) /\
    (forall (p : Params) (x : Tensor elt) (i : Z),
        call (UNet_obj net) p [VTensor x; VNum (PyInt i)] = Raise TypeError).
Proof. intros. repeat split. Qed.

(** X8.  When the schedule is a one-dimensional tensor with fewer entries
    than there are steps, [sample] raises an [IndexError] in its first
    pass, right after the model has answered the call for the step
    [steps - 1]. *)
Theorem sample_schedule_too_short :
  forall (RT : Runtime) (model : PyModel) (noise out : Tensor elt) (steps : Z)
         (alphas : value) (sched : Tensor elt) (n : nat) (w : World),
    getattr model "alphas_cumprod" = Ok alphas ->
    getattr model "sqrt_alphas_cumprod" = Ok (VTensor sched) ->
    shape sched = [n] -> (Z.of_nat n < steps)%Z ->
    call model (params w) [VTensor noise; VNum (PyInt (steps - 1))] = Ok out ->
    fst (sample model noise steps w) = Raise IndexError.
Proof.
  intros RT model noise out steps alphas sched n w Ha Hq Hn Hlt Hc.
  unfold sample. rewrite Ha, Hq. unfold mbind at 1 2 3. simpl.
  rewrite range3_down_pos by lia. simpl mfor.
  unfold mbind, call_model, emit, lift; simpl. rewrite Hc.
  unfold select. rewrite Hn.
  destruct ((- Z.of_nat n <=? steps - 1) && (steps - 1 <? Z.of_nat n))%Z eqn:E;
    [|reflexivity].
  apply andb_true_iff in E as [_ E]. apply Z.ltb_lt in E. lia.
Qed.

Lemma sample_schedule_too_short_witness :
  fst (sample Demo.short_schedule Demo.left0 2 Demo.w0) = Raise IndexError.
Proof.
  apply (sample_schedule_too_short Demo.runtime Demo.short_schedule Demo.left0
           (mkTensor [2; 1; 1; 1]%nat [1; 3]%Q true) 2%Z
           (VTensor Demo.sched1) Demo.sched1 1%nat Demo.w0);
    try reflexivity.
Defined.

(** X9.  A run of [sample] that returns has called the model once per
    step, for the steps [steps - 1, ..., 0] in that order, and has changed
    nothing else: generator, parameters, gradients and optimiser state
    are what they were. *)
Theorem sample_calls_once_per_step :
  forall (RT : Runtime) (model : PyModel) (noise y : Tensor elt) (steps : Z)
         (w w' : World),
    sample model noise steps w = (Ok y, w') ->
    rng w' = rng w /\ params w' = params w /\ grads w' = grads w /\ opt w' = opt w /\
    exists evs,
      trace w' = trace w ++ evs /\
      map step_of evs = map Some (range3 (steps - 1) (-1) (-1)).
Proof.
  intros RT model noise y steps w w'. unfold sample.
  unfold mbind at 1. unfold lift at 1.
  destruct (getattr model "alphas_cumprod"); [|discriminate].
  unfold mbind at 1. unfold lift at 1.
  destruct (getattr model "sqrt_alphas_cumprod") as [sq|]; [|discriminate].
  unfold mbind at 1. unfold lift at 1.
  destruct (to_device sq) as [sched|]; [|discriminate].
  apply (sample_loop_trace model sched).
Qed.

Lemma sample_calls_once_per_step_witness :
  rng (snd (sample Demo.echo Demo.left0 2 Demo.w0)) = rng Demo.w0 /\
  params (snd (sample Demo.echo Demo.left0 2 Demo.w0)) = params Demo.w0 /\
  grads (snd (sample Demo.echo Demo.left0 2 Demo.w0)) = grads Demo.w0 /\
  opt (snd (sample Demo.echo Demo.left0 2 Demo.w0)) = opt Demo.w0 /\
  exists evs,
    trace (snd (sample Demo.echo Demo.left0 2 Demo.w0)) = trace Demo.w0 ++ evs /\
    map step_of evs = map Some (range3 (2 - 1) (-1) (-1)).
Proof.
  apply (sample_calls_once_per_step Demo.runtime Demo.echo Demo.left0
           (mkTensor [2; 1; 1; 1]%nat
              [Qmult (Qmult 1 (1 # 5)) (1 # 3); Qmult (Qmult 3 (1 # 5)) (1 # 3)] true)
           2%Z Demo.w0 (snd (sample Demo.echo Demo.left0 2 Demo.w0))).
  reflexivity.
Defined.

(** C5.  On an instance of the script's network no noisy image is fed
    to the model.  A training iteration on a batch of rank 3 or more with
    [T >= 1] noise steps enters the loop at [t = T - 1]; the normal noise
    is drawn, with the shape of the image batch; then reading
    [model.sqrt_alphas_cumprod] on line 119 raises an [AttributeError],
    at this and at any noise step.  The iteration ends there: nothing is
    added to the log of model calls, and parameters, gradients and
    optimiser state are as they were. *)
Theorem no_noisy_image_on_UNet :
  forall (RT : Runtime) (net : UNet) (steps epoch : Z) (n_batches batch_idx : nat)
         (images : Tensor elt) (labels : list Z) (w : World)
         (b c h : nat) (r : Shape),
    (1 <= steps)%Z -> shape images = b :: c :: h :: r ->
    let drawn :=
      mkWorld (snd (draw (nelement images) (rng w))) (params w) (grads w) (opt w)
        (trace w) in
    (exists l, range3 (steps - 1) (-1) (-1) = (steps - 1)%Z :: l) /\
    (exists z, torch_randn_like images w = (Ok z, drawn) /\ shape z = shape images) /\
    getattr (UNet_obj net) "sqrt_alphas_cumprod" = Raise AttributeError /\
    (forall (X_left X_right : Tensor elt) (t : Z),
        noise_level (UNet_obj net) images X_left X_right labels t w
        = (Raise AttributeError, drawn)) /\
    train_batch (UNet_obj net) steps epoch n_batches batch_idx images labels w
    = (Raise AttributeError, drawn).
Proof.
  intros RT net steps epoch n_batches batch_idx images labels w b c h r Hs Hsh drawn.
  split; [eexists; apply (range3_down_pos steps Hs)|].
  split; [eexists; split; reflexivity|].
  split; [reflexivity|].
  split; [intros; apply noise_level_UNet|].
  apply (train_batch_UNet net steps epoch n_batches batch_idx images labels w b c h r
           Hs Hsh).
Qed.

Lemma no_noisy_image_on_UNet_witness :
  let drawn :=
    mkWorld (snd (draw (RT := Demo.runtime) (nelement Demo.mnist2) (rng Demo.w1)))
      (params Demo.w1) (grads Demo.w1) (opt Demo.w1) (trace Demo.w1) in
  (exists l, range3 (1000 - 1) (-1) (-1) = (1000 - 1)%Z :: l) /\
  (exists z, torch_randn_like Demo.mnist2 Demo.w1 = (Ok z, drawn) /\
             shape z = shape Demo.mnist2) /\
  getattr (UNet_obj (RT := Demo.runtime) Demo.net1) "sqrt_alphas_cumprod" = Raise AttributeError /\
  (forall (X_left X_right : Tensor (@elt Demo.runtime)) (t : Z),
      noise_level (UNet_obj (RT := Demo.runtime) Demo.net1) Demo.mnist2 X_left X_right [1; 0]%Z t Demo.w1
      = (Raise AttributeError, drawn)) /\
  train_batch (UNet_obj (RT := Demo.runtime) Demo.net1) 1000 0 1 0 Demo.mnist2 [1; 0]%Z Demo.w1
  = (Raise AttributeError, drawn).
Proof.
  apply (no_noisy_image_on_UNet Demo.runtime Demo.net1 1000%Z 0%Z 1%nat 0%nat
           Demo.mnist2 [1; 0]%Z Demo.w1 2%nat 1%nat 28%nat [28%nat]).
  - lia.
  - reflexivity.
Defined.

(** X10.  On a [UNet] instance the training loop gets no further than the
    first noise level of the first batch: once the loader has delivered a
    batch of rank 3 or more and the normal noise is drawn, reading
    [sqrt_alphas_cumprod] raises an [AttributeError]; the model has not
    been called and the parameters have not moved. *)
Theorem train_UNet_raises :
  forall (RT : Runtime) (net : UNet) (steps : Z) (w : World)
         (images : Tensor elt) (labels : list Z)
         (rest : list (Tensor elt * list Z)) (g' : Gen) (b c h : nat) (r : Shape),
    (1 <= steps)%Z ->
    iter_loader (rng w) = ((images, labels) :: rest, g') ->
    shape images = b :: c :: h :: r ->
    train (UNet_obj net) steps w
    = (Raise AttributeError,
       mkWorld (snd (draw (nelement images) g')) (params w) (grads w) (opt w) (trace w)).
Proof.
  intros RT net steps w images labels rest g' b c h r Hs Hl Hsh.
  unfold train. destruct (range_cons 10 ltac:(lia)) as [l ->].
  simpl mfor. apply mbind_raise. unfold mbind at 1. rewrite Hl.
  cbn [fst snd List.length seq combine mfor].
  apply mbind_raise.
  now rewrite (train_batch_UNet net steps 0%Z _ 0%nat images labels _ b c h r Hs Hsh).
Qed.

Lemma train_UNet_raises_witness :
  train (UNet_obj Demo.net1) 1 Demo.w0
  = (Raise AttributeError,
     mkWorld (snd (draw (RT := Demo.runtime) (nelement Demo.batch0) 1%nat))
       (params Demo.w0) (grads Demo.w0) (opt Demo.w0) (trace Demo.w0)).
Proof.
  apply (train_UNet_raises Demo.runtime Demo.net1 1%Z Demo.w0 Demo.batch0 [1; 0]%Z
           [] 1%nat 2%nat 1%nat 1%nat [2%nat]).
  - lia.
  - reflexivity.
  - reflexivity.
Defined.

(* ------------------------------------------------------------------ *)
(** ** Further properties of the constructor *)

Section MoreConstructorFacts.

Lemma fits_int64_spec (z : Z) :
  fits_int64 z = true <-> (- int64_bound <= z < int64_bound)%Z.
Proof.
  unfold fits_int64. rewrite andb_true_iff, Z.leb_le, Z.ltb_lt. reflexivity.
Qed.

Lemma conv_channels_int (a b : Z) :
  (0 <= a < int64_bound)%Z -> (0 <= b < int64_bound)%Z ->
  conv_channels (PyInt a) (PyInt b) = Ok (Z.to_nat a, Z.to_nat b).
Proof.
  intros Ha Hb. unfold conv_channels, weight_dims; simpl.
  assert (Fa : fits_int64 a = true) by (apply fits_int64_spec; lia).
  assert (Fb : fits_int64 b = true) by (apply fits_int64_spec; lia).
  rewrite Fa, Fb. simpl.
  destruct (Z.ltb_spec a 0); [lia|]. destruct (Z.ltb_spec b 0); [lia|]. reflexivity.
Qed.

(** Channel counts that a convolution constructor accepts are
    non-negative [int]s. *)
Lemma conv_channels_ok (x y : num) (io : nat * nat) :
  conv_channels x y = Ok io ->
  exists a b, x = PyInt a /\ y = PyInt b /\ (0 <= a)%Z /\ (0 <= b)%Z /\
              io = (Z.to_nat a, Z.to_nat b).
Proof.
  unfold conv_channels.
  destruct (negb (divisible_by_groups x)); [discriminate|].
  destruct (negb (divisible_by_groups y)); [discriminate|].
  unfold weight_dims. destruct x as [a|], y as [b|]; try discriminate.
  destruct (negb (fits_int64 a && fits_int64 b)); [discriminate|].
  destruct (Z.ltb_spec a 0); [discriminate|].
  destruct (Z.ltb_spec b 0); [discriminate|].
  simpl. intros [= <-]. exists a, b. repeat split; assumption.
Qed.

Lemma mul_pow_int (k o : Z) :
  (0 <= k)%Z -> mul (pow 2 k) (PyInt o) = PyInt (2 ^ k * o).
Proof.
  intros Hk. unfold pow. destruct (Z.leb_spec 0 k); [reflexivity | lia].
Qed.

(** [2 ** j * o] grows with [j]. *)
Lemma scaled_channels_mono (j k o : Z) :
  (0 <= j <= k)%Z -> (0 <= o)%Z -> (0 <= 2 ^ j * o <= 2 ^ k * o)%Z.
Proof.
  intros Hj Ho. split.
  - apply Z.mul_nonneg_nonneg; [apply Z.pow_nonneg|]; lia.
  - apply Z.mul_le_mono_nonneg_r; [assumption|].
    apply Z.pow_le_mono_r; lia.
Qed.

Lemma down_block_int (i o k : Z) :
  (0 <= i < int64_bound)%Z -> (0 <= o)%Z -> (0 <= k)%Z ->
  (2 ^ k * o < int64_bound)%Z ->
  is_ok (down_block (PyInt i) (PyInt o) k) = true.
Proof.
  intros Hi Ho Hk Hb. unfold down_block, down_in_ch, down_out_ch, nn_Conv2d.
  rewrite (mul_pow_int k o Hk).
  pose proof (scaled_channels_mono k k o ltac:(lia) Ho) as Hkk.
  destruct (Z.eqb_spec k 0) as [->|Hk0].
  - rewrite !conv_channels_int by lia. reflexivity.
  - rewrite (mul_pow_int (k - 1) o) by lia.
    pose proof (scaled_channels_mono (k - 1) k o ltac:(lia) Ho) as Hk1.
    rewrite !conv_channels_int by lia. reflexivity.
Qed.

Lemma bottleneck_block_int (o n : Z) :
  (0 <= o)%Z -> (1 <= n)%Z -> (2 ^ (n - 1) * o < int64_bound)%Z ->
  is_ok (bottleneck_block (PyInt o) n) = true.
Proof.
  intros Ho Hn Hb. unfold bottleneck_block, nn_Conv2d.
  rewrite (mul_pow_int (n - 1) o) by lia.
  pose proof (scaled_channels_mono 0 (n - 1) o ltac:(lia) Ho) as H0.
  change (2 ^ 0)%Z with 1%Z in H0. rewrite Z.mul_1_l in H0.
  rewrite !conv_channels_int by lia. reflexivity.
Qed.

Lemma up_block_int (o n k : Z) :
  (0 <= o)%Z -> (1 <= k)%Z -> (2 ^ k * o < int64_bound)%Z ->
  is_ok (up_block (PyInt o) n k) = true.
Proof.
  intros Ho Hk Hb. unfold up_block, up_in_ch, up_out_ch, nn_ConvTranspose2d, nn_Conv2d.
  rewrite (mul_pow_int (k - 1) o) by lia.
  pose proof (scaled_channels_mono (k - 1) k o ltac:(lia) Ho) as Hk1.
  pose proof (scaled_channels_mono 1 k o ltac:(lia) Ho) as H1.
  change (2 ^ 1)%Z with 2%Z in H1.
  destruct (k =? n - 1)%Z.
  - simpl mul. rewrite !conv_channels_int by lia. reflexivity.
  - rewrite (mul_pow_int k o) by lia.
    rewrite !conv_channels_int by lia. reflexivity.
Qed.

(** The last upsampling stage fails in its transposed convolution, with
    the exception that goes with the parity of [out_channels]. *)
Lemma up_block_0_exn (o n : Z) :
  up_block (PyInt o) n 0
  = Raise (if (o mod 2 =? 0)%Z then TypeError else ValueError).
Proof.
  unfold up_block, up_in_ch, up_out_ch, nn_ConvTranspose2d, conv_channels.
  assert (Hin : exists a, (if (0 =? n - 1)%Z then mul (PyInt o) (PyInt 2)
                           else mul (pow 2 0) (PyInt o)) = PyInt a).
  { destruct (0 =? n - 1)%Z; eexists; reflexivity. }
  destruct Hin as [a ->].
  change (mul (pow 2 (0 - 1)) (PyInt o))
    with (PyFloat (Qmult (1 # 2) (inject_Z o))).
  cbn [divisible_by_groups negb Qmult Qnum Qden inject_Z].
  rewrite Z.mul_1_l. change (Z.pos (2 * 1)) with 2%Z.
  destruct (o mod 2 =? 0)%Z; reflexivity.
Qed.

Lemma for_collect_all_ok {A B} (f : A -> result B) (l : list A) :
  (forall x, In x l -> is_ok (f x) = true) -> is_ok (for_collect l f) = true.
Proof.
  induction l as [|a l IH]; intros H; [reflexivity|].
  simpl. pose proof (H a (or_introl eq_refl)) as Ha.
  destruct (f a); [|discriminate]. simpl.
  pose proof (IH (fun x Hx => H x (or_intror Hx))) as Hl.
  destruct (for_collect l f); [reflexivity | discriminate].
Qed.

Lemma for_collect_last_exn {A B} (f : A -> result B) (l : list A) (x : A) (e : exn) :
  (forall a, In a l -> is_ok (f a) = true) -> f x = Raise e ->
  for_collect (l ++ [x]) f = Raise e.
Proof.
  intros Hl Hx. induction l as [|a l IH]; simpl.
  - now rewrite Hx.
  - pose proof (Hl a (or_introl eq_refl)) as Ha.
    destruct (f a); [|discriminate]. simpl.
    rewrite IH by (intros; apply Hl; now right). reflexivity.
Qed.

(** The stages of [range(n)]: stage 0, then stages between 1 and
    [n - 1]. *)
Lemma range_stages (n : Z) :
  (1 <= n)%Z ->
  exists l, range n = 0%Z :: l /\ forall i, In i l -> (1 <= i < n)%Z.
Proof.
  intros Hn. unfold range, range3. rewrite range_len_up.
  destruct (Z.to_nat n) as [|m] eqn:E; [lia|].
  rewrite <- cons_seq, map_cons. eexists. split; [reflexivity|].
  intros i Hi. apply in_map_iff in Hi as [k [<- Hk]]. apply in_seq in Hk. lia.
Qed.

Lemma for_collect_length {A B} (f : A -> result B) (l : list A) :
  forall ys, for_collect l f = Ok ys -> List.length ys = List.length l.
Proof.
  induction l as [|a l IH]; simpl; intros ys.
  - now intros [= <-].
  - destruct (f a); [|discriminate]. simpl.
    destruct (for_collect l f) as [zs|]; [|discriminate]. simpl.
    intros [= <-]. simpl. now rewrite (IH zs).
Qed.

Lemma for_collect_Forall {A B} (f : A -> result B) (l : list A) :
  forall ys, for_collect l f = Ok ys -> Forall (fun y => exists x, f x = Ok y) ys.
Proof.
  induction l as [|a l IH]; simpl; intros ys.
  - intros [= <-]. constructor.
  - destruct (f a) as [y|] eqn:E; [|discriminate]. simpl.
    destruct (for_collect l f) as [zs|]; [|discriminate]. simpl.
    intros [= <-]. constructor; [eauto | now apply IH].
Qed.

Lemma nn_Conv2d_ok (x y : num) (k p : nat) (l : Layer) :
  nn_Conv2d x y k p = Ok l ->
  exists a b, x = PyInt a /\ y = PyInt b /\ l = Conv2d (Z.to_nat a) (Z.to_nat b) k p.
Proof.
  unfold nn_Conv2d. destruct (conv_channels x y) as [io|] eqn:E; [|discriminate].
  destruct (conv_channels_ok x y io E) as (a & b & -> & -> & _ & _ & ->).
  simpl. intros [= <-]. eauto.
Qed.

Lemma down_block_stage (i o : num) (k : Z) (s : Sequential) :
  down_block i o k = Ok s -> exists a c, s = down_stage a c.
Proof.
  unfold down_block.
  destruct (nn_Conv2d (down_in_ch i o k) (down_out_ch o k) 3 1) as [c1|] eqn:E1;
    [|discriminate].
  destruct (nn_Conv2d (down_out_ch o k) (down_out_ch o k) 3 1) as [c2|] eqn:E2;
    [|discriminate].
  simpl. intros [= <-].
  destruct (nn_Conv2d_ok _ _ _ _ _ E1) as (a & b & _ & Hb & ->).
  destruct (nn_Conv2d_ok _ _ _ _ _ E2) as (b1 & b2 & Hb1 & Hb2 & ->).
  rewrite Hb in Hb1, Hb2. injection Hb1 as <-. injection Hb2 as <-.
  eexists _, _. reflexivity.
Qed.

Lemma up_block_stage (o : num) (n k : Z) (s : Sequential) :
  up_block o n k = Ok s -> exists a c, s = up_stage a c.
Proof.
  unfold up_block, nn_ConvTranspose2d.
  destruct (conv_channels (up_in_ch o n k) (up_out_ch o k)) as [io|] eqn:E0;
    [|discriminate].
  simpl.
  destruct (nn_Conv2d (up_out_ch o k) (up_out_ch o k) 3 1) as [c1|] eqn:E1;
    [|discriminate].
  simpl. intros [= <-].
  destruct (conv_channels_ok _ _ _ E0) as (a & b & _ & Hb & _ & _ & ->).
  destruct (nn_Conv2d_ok _ _ _ _ _ E1) as (b1 & b2 & Hb1 & Hb2 & ->).
  rewrite Hb in Hb1, Hb2. injection Hb1 as <-. injection Hb2 as <-.
  eexists _, _. reflexivity.
Qed.

(** A convolution the constructor accepts, with its channel counts. *)
Lemma nn_Conv2d_channels (x y : num) (k p : nat) (l : Layer) :
  nn_Conv2d x y k p = Ok l ->
  exists a b, x = PyInt a /\ y = PyInt b /\ (0 <= a)%Z /\ (0 <= b)%Z /\
              l = Conv2d (Z.to_nat a) (Z.to_nat b) k p.
Proof.
  unfold nn_Conv2d. destruct (conv_channels x y) as [io|] eqn:E; [|discriminate].
  destruct (conv_channels_ok x y io E) as (a & b & -> & -> & Ha & Hb & ->).
  simpl. intros [= <-]. exists a, b. repeat split; assumption.
Qed.

(** The bottleneck ends on [out_channels] channels. *)
Lemma bottleneck_block_channels (o : num) (n : Z) (s : Sequential) :
  bottleneck_block o n = Ok s ->
  exists a ob, o = PyInt ob /\ (0 <= ob)%Z /\ s = bottleneck_stage a (Z.to_nat ob).
Proof.
  unfold bottleneck_block.
  destruct (nn_Conv2d (mul (pow 2 (n - 1)) o) o 3 1) as [c1|] eqn:E1; [|discriminate].
  destruct (nn_Conv2d o o 3 1) as [c2|] eqn:E2; [|discriminate].
  simpl. intros [= <-].
  destruct (nn_Conv2d_channels _ _ _ _ _ E2) as (b1 & b2 & Hb1 & Hb2 & H1 & _ & ->).
  rewrite Hb1 in Hb2. injection Hb2 as <-.
  destruct (nn_Conv2d_channels _ _ _ _ _ E1) as (a & b & _ & Hb & _ & _ & ->).
  rewrite Hb1 in Hb. injection Hb as <-.
  exists (Z.to_nat a), b1. repeat split; assumption.
Qed.

(** The first upsampling stage, [i = num_layers - 1], is built for
    [out_channels * 2] input channels. *)
Lemma up_block_first_channels (o : num) (n : Z) (s : Sequential) :
  up_block o n (n - 1) = Ok s ->
  exists ob c, o = PyInt ob /\ s = up_stage (Z.to_nat (ob * 2)) c.
Proof.
  intros H. destruct (up_block_stage _ _ _ _ H) as (a & c & ->).
  revert H. unfold up_block, nn_ConvTranspose2d, up_in_ch.
  rewrite Z.eqb_refl.
  destruct (conv_channels (mul o (PyInt 2)) (up_out_ch o (n - 1))) as [io|] eqn:E0;
    [|discriminate].
  destruct (conv_channels_ok _ _ _ E0) as (x & y & Hx & _ & _ & _ & ->).
  destruct o as [ob|q]; [|discriminate]. injection Hx as <-.
  cbn [rbind fst snd].
  destruct (nn_Conv2d (up_out_ch (PyInt ob) (n - 1)) (up_out_ch (PyInt ob) (n - 1)) 3 1);
    [|discriminate].
  cbn [rbind]. unfold up_stage. intros [= <- _ _ _]. exists ob, c. split; reflexivity.
Qed.

End MoreConstructorFacts.

(** X11.  For integer channel counts between 1 and 1024 (the largest
    stage, [2 ** (num_layers - 1) * out_channels], included) and
    [num_layers >= 1], every constructor call before the last upsampling
    stage goes through: the downsampling stages, the bottleneck and the
    upsampling stages [i >= 1].  The stage [i = 0] is the one that
    raises, and [__init__] ends with its exception: a [TypeError] when
    [out_channels] is even, a [ValueError] when it is odd. *)
Theorem UNet_init_first_failure :
  forall in_channels out_channels num_layers : Z,
    (1 <= in_channels <= 1024)%Z -> (1 <= out_channels)%Z -> (1 <= num_layers)%Z ->
    (2 ^ (num_layers - 1) * out_channels <= 1024)%Z ->
    let e := if (out_channels mod 2 =? 0)%Z then TypeError else ValueError in
    is_ok (for_collect (range num_layers)
             (down_block (PyInt in_channels) (PyInt out_channels))) = true /\
    is_ok (bottleneck_block (PyInt out_channels) num_layers) = true /\
    (forall i, (1 <= i < num_layers)%Z ->
               is_ok (up_block (PyInt out_channels) num_layers i) = true) /\
    up_block (PyInt out_channels) num_layers 0 = Raise e /\
    UNet_init (PyInt in_channels) (PyInt out_channels) num_layers = Raise e.
Proof.
  intros i o n Hi Ho Hn Hmax e.
  assert (HB : (1024 < int64_bound)%Z) by reflexivity.
  assert (Hst : forall k, (0 <= k < n)%Z -> (2 ^ k * o < int64_bound)%Z).
  { intros k Hk.
    pose proof (scaled_channels_mono k (n - 1) o ltac:(lia) ltac:(lia)). lia. }
  destruct (range_stages n Hn) as (l & Hr & Hl).
  assert (Hd : is_ok (for_collect (range n) (down_block (PyInt i) (PyInt o))) = true).
  { apply for_collect_all_ok. intros k Hk.
    assert (0 <= k < n)%Z.
    { rewrite Hr in Hk. destruct Hk as [<-|Hk]; [lia | apply Hl in Hk; lia]. }
    apply down_block_int; try lia; try (apply Hst; lia). }
  assert (Hb : is_ok (bottleneck_block (PyInt o) n) = true).
  { apply bottleneck_block_int; try lia; try (apply Hst; lia). }
  repeat split; try assumption.
  - intros k Hk. apply up_block_int; try lia; try (apply Hst; lia).
  - apply up_block_0_exn.
  - unfold UNet_init.
    destruct (for_collect (range n) _); [|discriminate].
    destruct (bottleneck_block _ _); [|discriminate]. simpl.
    unfold reversed. rewrite Hr. simpl rev.
    rewrite (for_collect_last_exn (up_block (PyInt o) n) (rev l) 0%Z e).
    + reflexivity.
    + intros k Hk. apply in_rev in Hk. apply Hl in Hk.
      apply up_block_int; try lia; try (apply Hst; lia).
    + apply up_block_0_exn.
Qed.

Lemma UNet_init_first_failure_witness :
  is_ok (for_collect (range 5) (down_block (PyInt 1) (PyInt 1))) = true /\
  is_ok (bottleneck_block (PyInt 1) 5) = true /\
  (forall i, (1 <= i < 5)%Z -> is_ok (up_block (PyInt 1) 5 i) = true) /\
  up_block (PyInt 1) 5 0 = Raise ValueError /\
  UNet_init (PyInt 1) (PyInt 1) 5 = Raise ValueError.
Proof.
  apply (UNet_init_first_failure 1%Z 1%Z 5%Z); lia.
Defined.

(** X12.  With [num_layers <= 0] both loops of [__init__] are empty, and
    the constructor still raises: the first convolution of the bottleneck
    is given the float [2 ** (num_layers - 1) * out_channels] as its input
    channel count. *)
Theorem UNet_init_without_stages :
  forall (in_channels out_channels : num) (num_layers : Z),
    (num_layers <= 0)%Z ->
    for_collect (range num_layers) (down_block in_channels out_channels) = Ok [] /\
    for_collect (reversed (range num_layers)) (up_block out_channels num_layers) = Ok [] /\
    is_float (mul (pow 2 (num_layers - 1)) out_channels) = true /\
    is_ok (bottleneck_block out_channels num_layers) = false /\
    exists e, UNet_init in_channels out_channels num_layers = Raise e.
Proof.
  intros i o n Hn. rewrite (range_nil n Hn). repeat split.
  - apply mul_pow_negative_float. lia.
  - now apply bottleneck_block_raises.
  - apply UNet_init_raises.
Qed.

Lemma UNet_init_without_stages_witness :
  for_collect (range 0) (down_block (PyInt 1) (PyInt 1)) = Ok [] /\
  for_collect (reversed (range 0)) (up_block (PyInt 1) 0) = Ok [] /\
  is_float (mul (pow 2 (0 - 1)) (PyInt 1)) = true /\
  is_ok (bottleneck_block (PyInt 1) 0) = false /\
  exists e, UNet_init (PyInt 1) (PyInt 1) 0 = Raise e.
Proof.
  apply (UNet_init_without_stages (PyInt 1) (PyInt 1) 0%Z). lia.
Defined.

(* ------------------------------------------------------------------ *)
(** ** Further properties of the forward pass *)

Section ForwardFacts.

Context {P T : Type} {BK : Backend P T}.
Variable p : P.

(** The downsampling loop appends one entry a stage to [down_outputs],
    and the entry of the last stage is the tensor it returns. *)
Lemma down_pass_invariant (ls : list Sequential) :
  forall (x y : T) (acc outs : list T),
    down_pass p ls x acc = Ok (y, outs) ->
    List.length outs = (List.length acc + List.length ls)%nat /\
    (ls <> [] -> neg_index outs 1 = Ok y).
Proof.
  induction ls as [|l ls IH]; intros x y acc outs; simpl.
  - intros [= <- <-]. split; [lia | congruence].
  - destruct (run_sequential p l x) as [x'|]; [|discriminate]. simpl.
    intros H. destruct (IH _ _ _ _ H) as [Hlen Hlast]. split.
    + rewrite Hlen, length_app. simpl. lia.
    + intros _. destruct ls as [|l2 ls].
      * simpl in H. injection H as <- <-.
        unfold neg_index. rewrite rev_app_distr. reflexivity.
      * apply Hlast. discriminate.
Qed.

(** The upsampling loop raises an [IndexError] as soon as it asks for a
    skip connection that is not there. *)
Lemma up_pass_bound (ls : list Sequential) :
  forall (i : nat) (outs : list T) (x y : T),
    up_pass p ls i outs x = Ok y -> (List.length ls <= List.length outs - i)%nat.
Proof.
  induction ls as [|l ls IH]; intros i outs x y; simpl; [lia|].
  destruct (run_sequential p l x) as [x1|]; [|discriminate]. simpl.
  destruct (neg_index outs (i + 1)) as [sk|] eqn:E; [|discriminate]. simpl.
  destruct (cat_dim1 x1 sk) as [x2|]; [|discriminate]. simpl.
  intros H. apply IH in H.
  unfold neg_index in E. rewrite Nat.add_1_r in E.
  destruct (nth_error (rev outs) i) eqn:En; [|discriminate].
  assert (i < List.length (rev outs))%nat by (apply nth_error_Some; congruence).
  rewrite length_rev in *. lia.
Qed.

End ForwardFacts.

Section ShapeFacts.

Lemma conv_extent_same (h : nat) : (1 <= h)%nat -> conv_extent h 3 1 = Ok h.
Proof.
  intros Hh. unfold conv_extent.
  destruct (Nat.ltb_spec (h + 2 * 1) 3); [lia|]. f_equal. lia.
Qed.

Lemma conv_extent_ok (h h' : nat) : conv_extent h 3 1 = Ok h' -> h' = h /\ (1 <= h)%nat.
Proof.
  unfold conv_extent. destruct (Nat.ltb_spec (h + 2 * 1) 3); [discriminate|].
  intros [= <-]. lia.
Qed.

Lemma pool_extent_ok (h h' : nat) :
  pool_extent h 2 = Ok h' -> h' = (h / 2)%nat /\ (1 <= h / 2)%nat.
Proof.
  unfold pool_extent. set (q := (h / 2)%nat).
  destruct (Nat.eqb_spec q 0); [discriminate|].
  intros [= <-]. lia.
Qed.

Lemma convT_extent_double (h : nat) : (1 <= h)%nat -> convT_extent h 2 2 = (2 * h)%nat.
Proof. intros Hh. unfold convT_extent. lia. Qed.

(** A 3 x 3 convolution with padding 1 on a shape: a batch or a single
    image, with the channel count the layer was built for. *)
Lemma Conv2d_shape_ok (a c : nat) (s y : Shape) :
  layer_shape (Conv2d a c 3 1) s = Ok y ->
  exists pre h w,
    (List.length pre <= 1)%nat /\ s = pre ++ [a; h; w] /\ y = pre ++ [c; h; w] /\
    (1 <= h)%nat /\ (1 <= w)%nat.
Proof.
  destruct s as [|x1 [|x2 [|x3 [|x4 [|? ?]]]]]; try discriminate;
    cbn [layer_shape layer_chw].
  - destruct (Nat.eqb_spec x1 a) as [->|]; [|discriminate].
    destruct (conv_extent x2 3 1) as [h'|] eqn:Eh; [|discriminate].
    destruct (conv_extent x3 3 1) as [w'|] eqn:Ew; [|discriminate].
    cbn [rbind]. intros [= <-].
    apply conv_extent_ok in Eh as [-> Hh]. apply conv_extent_ok in Ew as [-> Hw].
    exists [], x2, x3. repeat split; try assumption. simpl. lia.
  - destruct (Nat.eqb_spec x2 a) as [->|]; [|discriminate].
    destruct (conv_extent x3 3 1) as [h'|] eqn:Eh; [|discriminate].
    destruct (conv_extent x4 3 1) as [w'|] eqn:Ew; [|discriminate].
    cbn [rbind]. intros [= <-].
    apply conv_extent_ok in Eh as [-> Hh]. apply conv_extent_ok in Ew as [-> Hw].
    exists [x1], x3, x4. repeat split; try assumption. simpl. lia.
Qed.

(** The same on a batch. *)
Lemma Conv2d_batch_ok (a c b ci h w : nat) (y : Shape) :
  layer_shape (Conv2d a c 3 1) [b; ci; h; w] = Ok y ->
  ci = a /\ y = [b; c; h; w] /\ (1 <= h)%nat /\ (1 <= w)%nat.
Proof.
  cbn [layer_shape layer_chw].
  destruct (Nat.eqb_spec ci a) as [->|]; [|discriminate].
  destruct (conv_extent h 3 1) as [h'|] eqn:Eh; [|discriminate].
  destruct (conv_extent w 3 1) as [w'|] eqn:Ew; [|discriminate].
  cbn [rbind]. intros [= <-].
  apply conv_extent_ok in Eh as [-> Hh]. apply conv_extent_ok in Ew as [-> Hw].
  repeat split; assumption.
Qed.

(** A downsampling stage halves height and width of a batch, rounding
    down, and needs both to be 2 at least. *)
Lemma down_stage_shape (a c : nat) (b ci h w : nat) (y : Shape) :
  run_sequential (BK := ShapeBackend) tt (down_stage a c) [b; ci; h; w] = Ok y ->
  ci = a /\ y = [b; c; (h / 2)%nat; (w / 2)%nat] /\
  (1 <= h / 2)%nat /\ (1 <= w / 2)%nat.
Proof.
  unfold run_sequential, down_stage. cbn [for_fold run_layer ShapeBackend rbind].
  destruct (layer_shape (Conv2d a c 3 1) [b; ci; h; w]) as [s1|] eqn:E1; [|discriminate].
  destruct (Conv2d_batch_ok _ _ _ _ _ _ _ E1) as (-> & -> & Hh & Hw).
  cbn [rbind]. change (layer_shape LeakyReLU [b; c; h; w]) with (Ok [b; c; h; w]).
  cbn [rbind].
  destruct (layer_shape (Conv2d c c 3 1) [b; c; h; w]) as [s2|] eqn:E2; [|discriminate].
  destruct (Conv2d_batch_ok _ _ _ _ _ _ _ E2) as (_ & -> & _ & _).
  cbn [rbind]. change (layer_shape LeakyReLU [b; c; h; w]) with (Ok [b; c; h; w]).
  cbn [rbind layer_shape layer_chw].
  destruct (pool_extent h 2) as [hp|] eqn:Eh; [|discriminate].
  destruct (pool_extent w 2) as [wp|] eqn:Ew; [|discriminate].
  cbn [rbind]. intros [= <-].
  apply pool_extent_ok in Eh as [-> Hhp]. apply pool_extent_ok in Ew as [-> Hwp].
  repeat split; assumption.
Qed.

(** What leaves the bottleneck, a batch or a single image, has the
    channel count of its second convolution. *)
Lemma bottleneck_stage_shape (a c : nat) (s y : Shape) :
  run_sequential (BK := ShapeBackend) tt (bottleneck_stage a c) s = Ok y ->
  exists pre h w, (List.length pre <= 1)%nat /\ y = pre ++ [c; h; w].
Proof.
  unfold run_sequential, bottleneck_stage. cbn [for_fold run_layer ShapeBackend rbind].
  destruct (layer_shape (Conv2d a c 3 1) s) as [s1|] eqn:E1; [|discriminate].
  cbn [rbind]. change (layer_shape LeakyReLU s1) with (Ok s1). cbn [rbind].
  destruct (layer_shape (Conv2d c c 3 1) s1) as [s2|] eqn:E2; [|discriminate].
  destruct (Conv2d_shape_ok _ _ _ _ E2) as (pre & h & w & Hp & _ & -> & _ & _).
  cbn [rbind]. change (layer_shape LeakyReLU (pre ++ [c; h; w]))
    with (Ok (pre ++ [c; h; w])).
  cbn [rbind]. intros [= <-]. exists pre, h, w. split; [assumption | reflexivity].
Qed.

(** An upsampling stage raises on a tensor, batch or single image, whose
    channel count is not the one its transposed convolution was built
    for. *)
Lemma up_stage_channel_mismatch (a c ci h w : nat) (pre : list nat) :
  (List.length pre <= 1)%nat -> ci <> a ->
  run_sequential (BK := ShapeBackend) tt (up_stage a c) (pre ++ [ci; h; w])
  = Raise RuntimeError.
Proof.
  intros Hp Hc. unfold run_sequential, up_stage.
  destruct pre as [|b [|? ?]]; [| |simpl in Hp; lia];
    cbn [app for_fold run_layer ShapeBackend rbind layer_shape layer_chw];
    destruct (Nat.eqb_spec ci a); [contradiction | reflexivity | contradiction | reflexivity].
Qed.

(** An upsampling stage doubles height and width. *)
Lemma up_stage_shape (a c : nat) (b ci h w : nat) (y : Shape) :
  (1 <= h)%nat -> (1 <= w)%nat ->
  run_sequential (BK := ShapeBackend) tt (up_stage a c) [b; ci; h; w] = Ok y ->
  ci = a /\ y = [b; c; (2 * h)%nat; (2 * w)%nat].
Proof.
  intros Hh Hw. unfold run_sequential, up_stage.
  cbn [for_fold run_layer ShapeBackend rbind layer_shape layer_chw].
  destruct (Nat.eqb_spec ci a) as [->|]; [|discriminate].
  rewrite !convT_extent_double by assumption.
  cbn [rbind]. rewrite Nat.eqb_refl.
  rewrite !conv_extent_same by lia. cbn [rbind].
  rewrite Nat.eqb_refl. rewrite !conv_extent_same by lia. cbn [rbind].
  intros [= <-]. split; reflexivity.
Qed.

(** Down the stages of the constructor, height and width are divided by
    2 once a stage. *)
Lemma down_stages_shape (ls : list Sequential) :
  Forall (fun s => exists a c, s = down_stage a c) ls ->
  forall (b c h w : nat) (acc : list Shape) (y : Shape) (outs : list Shape),
    down_pass (BK := ShapeBackend) tt ls [b; c; h; w] acc = Ok (y, outs) ->
    exists c',
      y = [b; c'; (h / 2 ^ List.length ls)%nat; (w / 2 ^ List.length ls)%nat] /\
      (ls <> [] ->
       (1 <= h / 2 ^ List.length ls)%nat /\ (1 <= w / 2 ^ List.length ls)%nat).
Proof.
  induction 1 as [|s ls Hs Hls IH]; intros b c h w acc y outs H.
  - cbn [down_pass] in H. injection H as <- <-. exists c.
    cbn [List.length Nat.pow]. rewrite !Nat.div_1_r. split; [reflexivity | congruence].
  - revert H. cbn [down_pass]. destruct Hs as (a & c1 & ->).
    destruct (run_sequential (BK := ShapeBackend) tt (down_stage a c1)
                ([b; c; h; w] : Shape)) as [x1|] eqn:E; [|discriminate].
    destruct (down_stage_shape _ _ _ _ _ _ _ E) as (_ & -> & Hh & Hw).
    cbn [rbind]. intros H. destruct (IH _ _ _ _ _ _ _ H) as (c' & -> & Hb).
    exists c'. cbn [List.length]. rewrite !Nat.pow_succ_r', <- !Nat.Div0.div_div.
    split; [reflexivity|].
    intros _. destruct ls as [|s2 ls].
    + cbn [List.length Nat.pow]. rewrite !Nat.div_1_r. split; assumption.
    + apply Hb. discriminate.
Qed.

End ShapeFacts.

(** X13.  After the downsampling loop of [forward], [down_outputs] has
    one entry a stage, and with a stage at least its last entry, the
    first skip connection [down_outputs[-1]], is the very tensor the loop
    hands to the bottleneck: what is kept is the output of the stage,
    pooling included. *)
Theorem down_outputs_hold_stage_outputs :
  forall (P T : Type) (BK : Backend P T) (p : P) (ls : list Sequential)
         (x y : T) (outs : list T),
    down_pass p ls x [] = Ok (y, outs) ->
    List.length outs = List.length ls /\
    (ls <> [] -> neg_index outs 1 = Ok y).
Proof.
  intros P T BK p ls x y outs H.
  destruct (down_pass_invariant p ls x y [] outs H) as [Hl Hlast].
  split; [exact Hl | exact Hlast].
Qed.

Lemma down_outputs_hold_stage_outputs_witness :
  List.length [[1; 2; 14; 14]%nat] = List.length (down_layers Demo.net1) /\
  (down_layers Demo.net1 <> [] ->
   neg_index [[1; 2; 14; 14]%nat] 1 = Ok [1; 2; 14; 14]%nat).
Proof.
  apply (down_outputs_hold_stage_outputs unit Shape ShapeBackend tt
           (down_layers Demo.net1) [1; 1; 28; 28]%nat).
  reflexivity.
Defined.

(** X14.  The forward pass returns only on a network with no more
    upsampling stages than downsampling stages: a further stage asks for
    a skip connection that was never stored, which is an [IndexError]. *)
Theorem forward_needs_a_skip_per_up_stage :
  forall (P T : Type) (BK : Backend P T) (p : P) (net : UNet) (x y : T),
    forward p net x = Ok y ->
    (List.length (up_layers net) <= List.length (down_layers net))%nat.
Proof.
  intros P T BK p net x y. unfold forward.
  destruct (down_pass p (down_layers net) x []) as [[xd outs]|] eqn:Ed; [|discriminate].
  simpl.
  destruct (run_sequential p (bottleneck net) xd) as [x1|]; [|discriminate]. simpl.
  destruct (up_pass p (up_layers net) 0 outs x1) as [x2|] eqn:Eu; [|discriminate].
  intros _. apply up_pass_bound in Eu.
  destruct (down_pass_invariant p _ _ _ _ _ Ed) as [Hl _]. simpl in *. lia.
Qed.

Lemma forward_needs_a_skip_per_up_stage_witness :
  (List.length (up_layers Demo.net_ok) <= List.length (down_layers Demo.net_ok))%nat.
Proof.
  apply (forward_needs_a_skip_per_up_stage unit Shape ShapeBackend tt Demo.net_ok
           [1; 1; 4; 4]%nat [1; 1; 2; 2]%nat).
  reflexivity.
Defined.

(** X15.  The downsampling stages the constructor builds for stages
    [0, ..., n - 1] divide height and width by [2 ** n], and run only on
    inputs that are at least [2 ** n] high and wide. *)
Theorem down_stages_divide_by_power_of_two :
  forall (in_channels out_channels : num) (num_layers : Z) (downs : list Sequential)
         (b c h w : nat) (y : Shape) (outs : list Shape),
    (1 <= num_layers)%Z ->
    for_collect (range num_layers) (down_block in_channels out_channels) = Ok downs ->
    down_pass (BK := ShapeBackend) tt downs [b; c; h; w] [] = Ok (y, outs) ->
    let n := Z.to_nat num_layers in
    (2 ^ n <= h)%nat /\ (2 ^ n <= w)%nat /\
    exists c', y = [b; c'; (h / 2 ^ n)%nat; (w / 2 ^ n)%nat].
Proof.
  intros i o nl downs b c h w y outs Hn Hd Hp n.
  assert (Hlen : List.length downs = n).
  { rewrite (for_collect_length _ _ downs Hd). unfold range, range3.
    now rewrite length_map, length_seq, range_len_up. }
  assert (Hall : Forall (fun s => exists a c, s = down_stage a c) downs).
  { eapply Forall_impl; [|apply (for_collect_Forall _ _ downs Hd)].
    intros s [k Hk]. now apply down_block_stage in Hk. }
  destruct (down_stages_shape downs Hall _ _ _ _ _ _ _ Hp) as (c' & Hy & Hb).
  rewrite Hlen in *.
  assert (Hne : downs <> []).
  { intros ->. simpl in Hlen. unfold n in Hlen. lia. }
  destruct (Hb Hne) as [Hh Hw].
  assert (Hpos : (2 ^ n <> 0)%nat) by (apply Nat.pow_nonzero; lia).
  repeat split.
  - destruct (Nat.lt_ge_cases h (2 ^ n)) as [Hlt|]; [|assumption].
    rewrite (Nat.div_small h (2 ^ n) Hlt) in Hh. lia.
  - destruct (Nat.lt_ge_cases w (2 ^ n)) as [Hlt|]; [|assumption].
    rewrite (Nat.div_small w (2 ^ n) Hlt) in Hw. lia.
  - exists c'. exact Hy.
Qed.

Lemma down_stages_divide_by_power_of_two_witness :
  (2 ^ Z.to_nat 2 <= 28)%nat /\ (2 ^ Z.to_nat 2 <= 28)%nat /\
  exists c', [1; 4; 7; 7]%nat = [1%nat; c'; (28 / 2 ^ Z.to_nat 2)%nat; (28 / 2 ^ Z.to_nat 2)%nat].
Proof.
  apply (down_stages_divide_by_power_of_two (PyInt 1) (PyInt 2) 2%Z
           [down_stage 1 2; down_stage 2 4] 1%nat 1%nat 28%nat 28%nat
           [1; 4; 7; 7]%nat [[1; 2; 14; 14]%nat; [1; 4; 7; 7]%nat]).
  - lia.
  - reflexivity.
  - reflexivity.
Defined.

(** X16.  On the stages that the blocks of the constructor build for a
    non-zero [out_channels], the forward pass cannot return, on a batch
    or on a single image: the bottleneck ends on [out_channels] channels
    and the first upsampling stage, [i = num_layers - 1], is built for
    [out_channels * 2], so whenever the downsampling stages and the
    bottleneck run, the transposed convolution of that stage raises a
    [RuntimeError] on what the bottleneck hands it, and [forward] ends
    with it before any [torch.cat]. *)
Theorem forward_fails_on_constructor_stages :
  forall (in_channels out_channels : num) (num_layers : Z)
         (downs : list Sequential) (bott u : Sequential)
         (rest : list Sequential) (outl : Layer) (x : Shape),
    out_channels <> PyInt 0 ->
    for_collect (range num_layers) (down_block in_channels out_channels) = Ok downs ->
    bottleneck_block out_channels num_layers = Ok bott ->
    up_block out_channels num_layers (num_layers - 1) = Ok u ->
    let net := mkUNet downs bott (u :: rest) outl in
    (forall xb x1 : Shape,
        run_sequential (BK := ShapeBackend) tt bott xb = Ok x1 ->
        run_sequential (BK := ShapeBackend) tt u x1 = Raise RuntimeError) /\
    (forall (xd : Shape) (outs : list Shape) (x1 : Shape),
        down_pass (BK := ShapeBackend) tt downs x [] = Ok (xd, outs) ->
        run_sequential (BK := ShapeBackend) tt bott xd = Ok x1 ->
        forward (BK := ShapeBackend) tt net x = Raise RuntimeError) /\
    exists e, forward (BK := ShapeBackend) tt net x = Raise e.
Proof.
  intros i o n downs bott u rest outl x Ho Hd Hb Hu net.
  destruct (bottleneck_block_channels _ _ _ Hb) as (ab & ob & -> & Hob & ->).
  destruct (up_block_first_channels _ _ _ Hu) as (ob' & cu & Heq & ->).
  injection Heq as <-.
  assert (Hpos : (1 <= ob)%Z).
  { destruct (Z.eq_dec ob 0) as [->|]; [now elim Ho | lia]. }
  assert (Hstage : forall xb x1 : Shape,
             run_sequential (BK := ShapeBackend) tt
               (bottleneck_stage ab (Z.to_nat ob)) xb = Ok x1 ->
             run_sequential (BK := ShapeBackend) tt
               (up_stage (Z.to_nat (ob * 2)) cu) x1 = Raise RuntimeError).
  { intros xb x1 H1.
    destruct (bottleneck_stage_shape _ _ _ _ H1) as (pre & h & w & Hp & ->).
    apply up_stage_channel_mismatch; [assumption | lia]. }
  assert (Hfwd : forall (xd : Shape) (outs : list Shape) (x1 : Shape),
             down_pass (BK := ShapeBackend) tt downs x [] = Ok (xd, outs) ->
             run_sequential (BK := ShapeBackend) tt
               (bottleneck_stage ab (Z.to_nat ob)) xd = Ok x1 ->
             forward (BK := ShapeBackend) tt net x = Raise RuntimeError).
  { intros xd outs x1 Ed E1. unfold forward, net.
    cbn [down_layers bottleneck up_layers output_layer].
    rewrite Ed. cbn [rbind fst snd]. rewrite E1. cbn [rbind up_pass].
    rewrite (Hstage _ _ E1). reflexivity. }
  split; [exact Hstage|]. split; [exact Hfwd|].
  destruct (down_pass (BK := ShapeBackend) tt downs x []) as [[xd outs]|e] eqn:Ed.
  2: { exists e. unfold forward, net. cbn [down_layers]. rewrite Ed. reflexivity. }
  destruct (run_sequential (BK := ShapeBackend) tt
              (bottleneck_stage ab (Z.to_nat ob)) xd) as [x1|e] eqn:E1.
  2: { exists e. unfold forward, net. cbn [down_layers bottleneck].
       rewrite Ed. cbn [rbind fst snd]. rewrite E1. reflexivity. }
  exists RuntimeError. exact (Hfwd xd outs x1 eq_refl E1).
Qed.

Lemma forward_fails_on_constructor_stages_witness :
  let net := mkUNet [down_stage 1 2; down_stage 2 4] (bottleneck_stage 4 2)
               [up_stage 4 2] (Conv2d 2 2 3 1) in
  (forall xb x1 : Shape,
      run_sequential (BK := ShapeBackend) tt (bottleneck_stage 4 2) xb = Ok x1 ->
      run_sequential (BK := ShapeBackend) tt (up_stage 4 2) x1 = Raise RuntimeError) /\
  (forall (xd : Shape) (outs : list Shape) (x1 : Shape),
      down_pass (BK := ShapeBackend) tt [down_stage 1 2; down_stage 2 4]
        [1; 1; 28; 28]%nat [] = Ok (xd, outs) ->
      run_sequential (BK := ShapeBackend) tt (bottleneck_stage 4 2) xd = Ok x1 ->
      forward (BK := ShapeBackend) tt net [1; 1; 28; 28]%nat = Raise RuntimeError) /\
  exists e, forward (BK := ShapeBackend) tt net [1; 1; 28; 28]%nat = Raise e.
Proof.
  apply (forward_fails_on_constructor_stages (PyInt 1) (PyInt 2) 2%Z
           [down_stage 1 2; down_stage 2 4] (bottleneck_stage 4 2) (up_stage 4 2)
           [] (Conv2d 2 2 3 1) [1; 1; 28; 28]%nat).
  - discriminate.
  - reflexivity.
  - reflexivity.
  - reflexivity.
Defined.

(** X17.  An upsampling stage that the constructor builds doubles height
    and width of a tensor that is at least 1 x 1, and takes it only with
    the channel count the stage was built for. *)
Theorem up_stage_doubles :
  forall (out_channels : num) (num_layers i : Z) (u : Sequential)
         (b c h w : nat) (y : Shape),
    up_block out_channels num_layers i = Ok u ->
    (1 <= h)%nat -> (1 <= w)%nat ->
    run_sequential (BK := ShapeBackend) tt u [b; c; h; w] = Ok y ->
    exists a c', u = up_stage a c' /\ c = a /\ y = [b; c'; (2 * h)%nat; (2 * w)%nat].
Proof.
  intros o n i u b c h w y Hu Hh Hw Hr.
  destruct (up_block_stage _ _ _ _ Hu) as (a & c' & ->).
  destruct (up_stage_shape _ _ _ _ _ _ _ Hh Hw Hr) as [-> ->].
  exists a, c'. repeat split.
Qed.

Lemma up_stage_doubles_witness :
  exists a c', up_stage 4 2 = up_stage a c' /\ 4%nat = a /\
               [1; 2; 14; 14]%nat = [1%nat; c'; (2 * 7)%nat; (2 * 7)%nat].
Proof.
  apply (up_stage_doubles (PyInt 2) 2%Z 1%Z (up_stage 4 2) 1%nat 4%nat 7%nat 7%nat
           [1; 2; 14; 14]%nat).
  - reflexivity.
  - lia.
  - lia.
  - reflexivity.
Defined.

(* ------------------------------------------------------------------ *)
(** ** Further properties of a training step *)

Section MoreTrainingFacts.

Context {RT : Runtime}.

(** The first three statements of a noise level leave the parameters,
    the gradients and the optimiser state alone. *)
Lemma noisy_forward_frame (model : PyModel) (images : Tensor elt) (t : Z)
      (w w1 : World) (r : result (Tensor elt * Tensor elt)) :
  noisy_forward model images t w = (r, w1) ->
  params w1 = params w /\ grads w1 = grads w /\ opt w1 = opt w.
Proof.
  unfold noisy_forward, make_noisy, mbind, lift, mret, torch_randn_like, torch_randn.
  simpl.
  destruct (getattr model "sqrt_alphas_cumprod") as [sq|];
    [|intros [= _ <-]; repeat split].
  destruct (subscript sq t) as [s_t|]; [|intros [= _ <-]; repeat split].
  destruct (tmul _ s_t) as [noise|]; [|intros [= _ <-]; repeat split].
  destruct (getattr model "alphas_cumprod") as [al|];
    [|intros [= _ <-]; repeat split].
  destruct (subscript al t) as [a_t|]; [|intros [= _ <-]; repeat split].
  destruct (tmul images a_t) as [scaled|]; [|intros [= _ <-]; repeat split].
  destruct (tadd scaled noise) as [noisy|]; [|intros [= _ <-]; repeat split].
  unfold call_model, mbind, emit; simpl.
  destruct (call model _ _); intros [= _ <-]; repeat split.
Qed.

(** Labels enter the loss through the two masks only. *)
Lemma forward_forward_masks (model : PyModel) (X_left X_right : Tensor elt)
      (y y' : list Z) (w : World) :
  labels_eq y 1 = labels_eq y' 1 -> labels_eq y 0 = labels_eq y' 0 ->
  forward_forward model X_left X_right y w = forward_forward model X_left X_right y' w.
Proof. intros H1 H0. unfold forward_forward. now rewrite H1, H0. Qed.

Lemma labels_eq_relabel (c : Z) (y y' : list Z) :
  Forall2 (fun a b => a = c <-> b = c) y y' -> labels_eq y c = labels_eq y' c.
Proof.
  induction 1 as [|a b y y' Hab _ IH]; [reflexivity|].
  simpl. rewrite IH. f_equal.
  destruct (Z.eqb_spec c a) as [Ea|Ha], (Z.eqb_spec c b) as [Eb|Hb]; try reflexivity.
  - exfalso. apply Hb. symmetry. apply Hab. now symmetry.
  - exfalso. apply Ha. symmetry. apply Hab. now symmetry.
Qed.

(** Epochs over a loader without batches. *)
Lemma train_epochs_empty (model : PyModel) (steps : Z) (l : list Z) :
  (forall g, fst (iter_loader g) = []) ->
  let body :=
    fun (epoch : Z) (_ : unit) =>
      mbind (fun w =>
               let bg := iter_loader (rng w) in
               (Ok (fst bg),
                mkWorld (snd bg) (params w) (grads w) (opt w) (trace w)))
        (fun batches =>
           mfor (combine (seq 0 (List.length batches)) batches)
             (fun ib _ =>
                train_batch model steps epoch (List.length batches)
                  (fst ib) (fst (snd ib)) (snd (snd ib)))
             tt) in
  forall w,
    fst (mfor l body tt w) = Ok tt /\
    params (snd (mfor l body tt w)) = params w /\
    grads (snd (mfor l body tt w)) = grads w /\
    opt (snd (mfor l body tt w)) = opt w /\
    trace (snd (mfor l body tt w)) = trace w.
Proof.
  intros He body. induction l as [|epoch l IH]; intros w; [repeat split|].
  cbn [mfor].
  assert (Hstep : body epoch tt w
                  = (Ok tt, mkWorld (snd (iter_loader (rng w))) (params w) (grads w)
                              (opt w) (trace w))).
  { unfold body, mbind. rewrite (He (rng w)). reflexivity. }
  rewrite (mbind_ok _ _ _ _ _ Hstep).
  apply (IH (mkWorld (snd (iter_loader (rng w))) (params w) (grads w) (opt w) (trace w))).
Qed.

End MoreTrainingFacts.

(** X18.  A noise level on a batch whose labels contain no 1 or no 0 does
    not reach its regression loss: once the noisy images have gone
    through the model, the contrastive update raises a [RuntimeError],
    and the parameters are still the ones the noise level started
    with. *)
Theorem noise_level_stops_on_one_sided_batch :
  forall (RT : Runtime) (model : PyModel) (images X_left X_right : Tensor elt)
         (y : list Z) (t : Z) (w w1 : World) (nn : Tensor elt * Tensor elt),
    noisy_forward model images t w = (Ok nn, w1) ->
    batch_dim X_left = Some (List.length y) ->
    batch_dim X_right = Some (List.length y) ->
    ~ In 1%Z y \/ ~ In 0%Z y ->
    fst (noise_level model images X_left X_right y t w) = Raise RuntimeError /\
    params (snd (noise_level model images X_left X_right y t w)) = params w /\
    trace (snd (noise_level model images X_left X_right y t w)) = trace w1.
Proof.
  intros RT model images Xl Xr y t w w1 nn Hn Hl Hr Hy.
  destruct (noisy_forward_frame model images t w w1 _ Hn) as (Hp & _ & _).
  assert (Hcu : contrastive_update model Xl Xr y w1
                = (Raise RuntimeError,
                   mkWorld (rng w1) (params w1) None (opt w1) (trace w1))).
  { unfold contrastive_update.
    rewrite (mbind_ok _ _ w1 w1 _ (forward_forward_empty model Xl Xr y w1 Hl Hr Hy)).
    reflexivity. }
  unfold noise_level. rewrite (mbind_ok _ _ w w1 nn Hn).
  rewrite (mbind_raise _ _ _ _ _ Hcu). cbn [fst snd params trace].
  repeat split. exact Hp.
Qed.

Lemma noise_level_stops_on_one_sided_batch_witness :
  fst (noise_level Demo.echo Demo.images0 Demo.left0 Demo.right0 [1; 1]%Z 1 Demo.w0)
  = Raise RuntimeError /\
  params (snd (noise_level Demo.echo Demo.images0 Demo.left0 Demo.right0 [1; 1]%Z 1 Demo.w0))
  = params Demo.w0 /\
  trace (snd (noise_level Demo.echo Demo.images0 Demo.left0 Demo.right0 [1; 1]%Z 1 Demo.w0))
  = trace (snd (noisy_forward Demo.echo Demo.images0 1 Demo.w0)).
Proof.
  apply (noise_level_stops_on_one_sided_batch Demo.runtime Demo.echo Demo.images0
           Demo.left0 Demo.right0 [1; 1]%Z 1%Z Demo.w0
           (snd (noisy_forward Demo.echo Demo.images0 1 Demo.w0))
           (mkTensor [2; 1; 1; 2]%nat [0 # 5; 1 # 5; 2 # 5; 3 # 5]%Q false,
            mkTensor [2; 1; 1; 2]%nat [5 # 20; 14 # 20; 23 # 20; 32 # 20]%Q false)).
  - reflexivity.
  - reflexivity.
  - reflexivity.
  - right. simpl. intros [H|[H|[]]]; discriminate.
Defined.

(** X19.  With a loader that has no batch to deliver, the training loop
    runs its ten epochs to the end without an exception, a model call or
    a printed line, and leaves parameters, gradients and optimiser state
    as they were. *)
Theorem train_on_empty_loader :
  forall (RT : Runtime) (model : PyModel) (steps : Z) (w : World),
    (forall g, fst (iter_loader g) = []) ->
    fst (train model steps w) = Ok tt /\
    params (snd (train model steps w)) = params w /\
    grads (snd (train model steps w)) = grads w /\
    opt (snd (train model steps w)) = opt w /\
    trace (snd (train model steps w)) = trace w.
Proof.
  intros RT model steps w He. unfold train.
  apply (train_epochs_empty model steps (range 10) He w).
Qed.

Lemma train_on_empty_loader_witness :
  fst (train (RT := Demo.empty_runtime) (UNet_obj Demo.net1) 1000 Demo.w_empty) = Ok tt /\
  params (snd (train (RT := Demo.empty_runtime) (UNet_obj Demo.net1) 1000 Demo.w_empty))
  = params Demo.w_empty /\
  grads (snd (train (RT := Demo.empty_runtime) (UNet_obj Demo.net1) 1000 Demo.w_empty))
  = grads Demo.w_empty /\
  opt (snd (train (RT := Demo.empty_runtime) (UNet_obj Demo.net1) 1000 Demo.w_empty))
  = opt Demo.w_empty /\
  trace (snd (train (RT := Demo.empty_runtime) (UNet_obj Demo.net1) 1000 Demo.w_empty))
  = trace Demo.w_empty.
Proof.
  apply (train_on_empty_loader Demo.empty_runtime (UNet_obj Demo.net1) 1000%Z Demo.w_empty).
  intros g. reflexivity.
Defined.

(** X20.  The labels enter [forward_forward] only through the tests
    [y == 1] and [y == 0]: changing labels that are neither 1 nor 0 into
    other labels that are neither 1 nor 0 changes neither the outcome nor
    the state it leaves. *)
Theorem forward_forward_other_labels_ignored :
  forall (RT : Runtime) (model : PyModel) (X_left X_right : Tensor elt)
         (y y' : list Z) (w : World),
    Forall2 (fun a b => (a = 1%Z <-> b = 1%Z) /\ (a = 0%Z <-> b = 0%Z)) y y' ->
    forward_forward model X_left X_right y w = forward_forward model X_left X_right y' w.
Proof.
  intros RT model Xl Xr y y' w H.
  apply forward_forward_masks; apply labels_eq_relabel;
    (eapply Forall2_impl; [|exact H]); intros a b [H1 H0]; assumption.
Qed.

Lemma forward_forward_other_labels_ignored_witness :
  forward_forward Demo.echo Demo.left5 Demo.right5 [1; 7; 0; 3; 9]%Z Demo.w0
  = forward_forward Demo.echo Demo.left5 Demo.right5 [1; 2; 0; 8; 4]%Z Demo.w0.
Proof.
  apply (forward_forward_other_labels_ignored Demo.runtime Demo.echo
           Demo.left5 Demo.right5 [1; 7; 0; 3; 9]%Z [1; 2; 0; 8; 4]%Z Demo.w0).
  repeat constructor; intros H; discriminate.
Defined.
